(** * Signal analysis pipeline of the Binance trading front end

    A shallow embedding of the three algorithmic parts of the
    repository and the properties stated about them:

    - [Jj]       src/src/jj.js: CONFIG, the cached and throttled
                 [fetchKlines], [calculateIndicators], the weighted-voting
                 [performAnalysis] and the orchestrating [analyzeMarket];
    - [Part000]  src/unnamed/part_000: the multi-endpoint [fetchKlines].

    JavaScript numbers are IEEE-754 binary64 values, so they are modelled
    by Rocq's primitive floats: [15 * 0.7] below is the very double the
    script adds to the score.  A value that may be [undefined] is a
    [jsval]; an operation that raises a TypeError in JavaScript is a
    computation in the [completion] monad. *)

From Stdlib Require Import Floats.PrimFloat.
From stdpp Require Import base option list strings gmap pretty.

Set Warnings "-inexact-float".
Set Default Proof Using "Type".

(* ===================================================================== *)
(** ** JavaScript values and abrupt completion                            *)
(* ===================================================================== *)

Module JS.

(** A number or [undefined]. *)
Inductive jsval : Type :=
  | JUndef
  | JNum (x : float).

(** [v !== undefined] *)
Definition defined (v : jsval) : bool :=
  match v with JUndef => false | JNum _ => true end.

(** ToNumber: [undefined] becomes NaN. *)
Definition to_number (v : jsval) : float :=
  match v with JUndef => nan | JNum x => x end.

(** [a > b], [a < b], [a >= b], [a <= b] on possibly undefined operands:
  every comparison with NaN is false. *)
Definition gt (a b : jsval) : bool := (to_number b <? to_number a)%float.
Definition lt (a b : jsval) : bool := (to_number a <? to_number b)%float.
Definition ge (a b : jsval) : bool := (to_number b <=? to_number a)%float.
Definition le (a b : jsval) : bool := (to_number a <=? to_number b)%float.

(** The global [isNaN]. *)
Definition isNaN (v : jsval) : bool := is_nan (to_number v).

(** [Math.min(a, b)]: NaN if either is NaN, and -0 below +0. *)
Definition math_min (a b : float) : float :=
  if is_nan a || is_nan b then nan
  else if (a =? b)%float then
    match classify a with FloatClass.NZero => a | _ => b end
  else if (b <? a)%float then b else a.

(** [arr[i]] for an integer index: [undefined] outside the array. *)
Definition index (arr : list jsval) (i : Z) : jsval :=
  if decide (0 ≤ i)%Z then default JUndef (arr !! Z.to_nat i) else JUndef.

(** [arr.length] *)
Definition len {A} (arr : list A) : Z := Z.of_nat (length arr).

(** [arr.length > 0 ? arr[arr.length - 1] : undefined] *)
Definition last_or_undefined (arr : list jsval) : jsval :=
  if decide (0 < len arr)%Z then index arr (len arr - 1) else JUndef.

(** What a statement does: it completes normally with a value or throws. *)
Inductive js_error : Type :=
  | TypeError.

Inductive completion (A : Type) : Type :=
  | Normal (a : A)
  | Throw (e : js_error).
Arguments Normal {A} a.
Arguments Throw {A} e.

#[global] Instance completion_ret : MRet completion := @Normal.
#[global] Instance completion_bind : MBind completion :=
  fun A B k m => match m with Normal a => k a | Throw e => Throw e end.
#[global] Instance completion_fmap : FMap completion :=
  fun A B f m => match m with Normal a => Normal (f a) | Throw e => Throw e end.

(** [o.field] where [o] may be [undefined]: a TypeError if it is. *)
Definition prop {A} (o : option A) : completion A :=
  match o with Some a => Normal a | None => Throw TypeError end.

(** [o?.field] *)
Definition opt_chain {A} (o : option A) (field : A → jsval) : jsval :=
  match o with Some a => field a | None => JUndef end.

(** [Boolean(x)] for a number, as in [arr.filter(Boolean)]: false for NaN,
    +0 and -0. *)
Definition truthy_number (x : float) : bool :=
  negb (is_nan x || (x =? 0)%float).

(** [s.includes(sub)].  Strings are kept as their UTF-8 bytes; for
    well-formed text a match on bytes is a match on characters. *)
Definition includes (s sub : string) : bool :=
  match String.index 0 sub s with Some _ => true | None => false end.

(** [Math.round(x)] for [-0.5 <= x < count + 0.5], by trying the integers
    [n], [n + 1], ... in turn: the result is the integer [m] with
    [m - 0.5 <= x < m + 0.5] (a tie goes up); [None] outside that range.
    [n] is the integer [z] as a double. *)
Fixpoint math_round_from (count : nat) (n : float) (z : Z) (x : float) : option Z :=
  match count with
  | O => None
  | S count' =>
      if (n - 0.5 <=? x)%float && (x <? n + 0.5)%float then Some z
      else math_round_from count' (n + 1)%float (z + 1)%Z x
  end.

End JS.
Import JS.

(* ===================================================================== *)
(** ** What the exchange returns                                          *)
(* ===================================================================== *)

(** One row of the klines response, [[openTime, open, high, low, close,
  volume, ...]].  The scripts only ever read a cell through
  [parseFloat(k[i])], so a row is modelled by the doubles [parseFloat]
  yields (NaN for a cell that does not parse). *)
Module Kline.
Record t := {
  openTime : float;
  open : float;
  high : float;
  low : float;
  close : float;
  volume : float }.
End Kline.

(** A decoded response body.  It is an array, a falsy value such as [null]
    (what [!klines] and [data && ...] guard against), or some other truthy
    value: an object, a string.  An element of the array is a row, or
    [None] for a [null] element, on which [k[4]] is a TypeError; any other
    element is a row as [parseFloat] sees its cells.  Of a truthy value
    that is not an array the scripts only read [length], and only to
    compare it: [length] is that property as a comparison sees it,
    [undefined] when there is none. *)
Inductive payload : Type :=
| PNull
| PRows (rows : list (option Kline.t))
| POther (length : jsval).

(** The array seen row by row, as the first [klines.map(k =>
    parseFloat(k[i]))] leaves it when no element is [null]. *)
Fixpoint all_rows (rows : list (option Kline.t)) : option (list Kline.t) :=
  match rows with
  | [] => Some []
  | Some k :: rest => cons k <$> all_rows rest
  | None :: _ => None
  end.

(** [klines.map(k => parseFloat(k[i]))] on a decoded body: a TypeError on
    a body that has no [map] and at a [null] element. *)
Definition map_rows (data : payload) : completion (list Kline.t) :=
  match data with
  | PRows rows =>
      match all_rows rows with
      | Some klines => Normal klines
      | None => Throw TypeError
      end
  | PNull | POther _ => Throw TypeError
  end.

(** What [await fetch(url)] yields: a rejected promise, or a response with
  its [ok] flag, status line, text, and body ([None] when
  [response.json()] rejects). *)
Inductive response : Type :=
| NetworkFailure
| Http (ok : bool) (status : Z) (statusText text : string) (json : option payload).

Inductive result (E A : Type) : Type :=
| Ok (a : A)
| Err (e : E).
Arguments Ok {E A} a.
Arguments Err {E A} e.

(* ===================================================================== *)
(** ** src/src/jj.js                                                      *)
(* ===================================================================== *)

Module Jj.

(** *** CONFIG (lines 32-56) *)

Module CONFIG.
Module api.
Definition baseUrl : string := "https://api.binance.com/api/v3/klines".
Definition defaultLimit : N := 300.
Definition rateLimit : Z := 1000.
End api.
Module indicators.
Definition minDataPoints : Z := Z.max (Z.max 200 34) 18.
End indicators.
Module analysis.
Record weights_t := {
  trend : float; rsi : float; smaCrossover : float; macd : float;
  volume : float; bb : float; stochastic : float }.
Definition weights : weights_t := {|
  trend := 30; rsi := 20; smaCrossover := 20; macd := 15;
  volume := 15; bb := 10; stochastic := 10 |}.
(** [Object.values(weights)], in insertion order. *)
Definition weights_values (w : weights_t) : list float :=
  [trend w; rsi w; smaCrossover w; macd w; volume w; bb w; stochastic w].
Module thresholds.
Definition buy : float := 0.5.
Definition sell : float := (-0.5)%float.
End thresholds.
End analysis.
End CONFIG.

(** *** The indicator bundle (the object [calculateIndicators] returns) *)

Record series := { values : list jsval; current : jsval }.

(** The MACD entry: [{}] when the library was not consulted, so every
  property may be missing. *)
Module Macd.
Record t := {
  MACD : option (list jsval);
  signal : option (list jsval);
  histogram : option (list jsval);
  currentMACD : jsval;
  currentSignal : jsval;
  currentHistogram : jsval }.
Definition empty : t := {|
  MACD := None; signal := None; histogram := None;
  currentMACD := JUndef; currentSignal := JUndef; currentHistogram := JUndef |}.
End Macd.

Module Bollinger.
Record t := {
  upper : option (list jsval);
  middle : option (list jsval);
  lower : option (list jsval);
  currentUpper : jsval;
  currentMiddle : jsval;
  currentLower : jsval }.
Definition empty : t := {|
  upper := None; middle := None; lower := None;
  currentUpper := JUndef; currentMiddle := JUndef; currentLower := JUndef |}.
End Bollinger.

Module Stochastic.
Record t := {
  k : option (list jsval);
  d : option (list jsval);
  currentK : jsval;
  currentD : jsval }.
Definition empty : t := {|
  k := None; d := None; currentK := JUndef; currentD := JUndef |}.
End Stochastic.

(** Every entry is read through [?.] by [performAnalysis], so each may be
  missing altogether. *)
Record bundle := {
  sma20 : option series;
  sma50 : option series;
  sma200 : option series;
  rsi : option series;
  macd : option Macd.t;
  bollingerbands : option Bollinger.t;
  stochastic : option Stochastic.t;
  volumeSma20 : option series;
  currentVolume : jsval }.

(** *** The analysis object *)

Inductive direction : Type := buy | sell | neutral.

(** The text shown for a contribution: a literal, [x.toFixed(2)], or a
  template literal around [x.toFixed(2)]. *)
Inductive display : Type :=
  | Text (s : string)
  | Fixed2 (x : float)
  | Template (before : string) (x : float) (after : string).

(** [v.toFixed(2)]: a TypeError on [undefined]. *)
Definition toFixed2 (v : jsval) : completion float :=
  match v with JNum x => Normal x | JUndef => Throw TypeError end.

Record contribution := {
  name : string;
  value : display;
  signal : direction;
  weight : float }.

Record analysis := {
  signals : list contribution;
  score : float;
  decision : direction;
  confidence : float }.

(** [analysis.signals.push(c)] *)
Definition push (c : contribution) (a : analysis) : analysis :=
  {| signals := signals a ++ [c]; score := score a;
  decision := decision a; confidence := confidence a |}.

(** [analysis.score += w] and [analysis.score -= w] *)
Definition score_add (w : float) (a : analysis) : analysis :=
  {| signals := signals a; score := (score a + w)%float;
  decision := decision a; confidence := confidence a |}.
Definition score_sub (w : float) (a : analysis) : analysis :=
  {| signals := signals a; score := (score a - w)%float;
  decision := decision a; confidence := confidence a |}.

Definition set_decision (dec : direction) (c : float) (a : analysis) : analysis :=
  {| signals := signals a; score := score a; decision := dec; confidence := c |}.

(** *** performAnalysis (lines 209-354) *)

Module W := CONFIG.analysis.

(** [const weights = CONFIG.analysis.weights] *)
Definition weights : W.weights_t := W.weights.

(** [b && e] where evaluating [e] may throw: [e] is not evaluated when [b]
    is false. *)
Definition and_then (b : bool) (e : completion bool) : completion bool :=
  if b then e else Normal false.
Infix "&&>" := and_then (at level 41, right associativity).

(** [o?.length > 1] for an array that may be missing: [undefined > 1] is
    false. *)
Definition length_gt1 (o : option (list jsval)) : bool :=
  match o with Some arr => bool_decide (1 < len arr)%Z | None => false end.

(** [Object.values(weights).reduce((sum, weight) => sum + weight, 0)] *)
Definition maxPossibleScore : float :=
  fold_left (fun sum weight => (sum + weight)%float) (W.weights_values weights) 0%float.

Definition contrib (n : string) (v : display) (s : direction) (w : float) : contribution :=
  {| name := n; value := v; signal := s; weight := w |}.

(** 1. Trend analysis (lines 221-236) *)
Definition rule_trend (indicators : bundle) (currentPrice : jsval)
    (a : analysis) : completion analysis :=
  if defined (opt_chain (sma50 indicators) current)
     && defined (opt_chain (sma200 indicators) current) then
    s50 ← prop (sma50 indicators);
    s200 ← prop (sma200 indicators);
    let isUptrend := gt (current s50) (current s200) && gt currentPrice (current s50) in
    let isDowntrend := lt (current s50) (current s200) && lt currentPrice (current s50) in
    if isUptrend then
      mret (score_add (W.trend weights)
              (push (contrib "الاتجاه (SMAs)" (Text "صاعد") buy (W.trend weights)) a))
    else if isDowntrend then
      mret (score_sub (W.trend weights)
              (push (contrib "الاتجاه (SMAs)" (Text "هابط") sell (W.trend weights)) a))
    else
      mret (push (contrib "الاتجاه (SMAs)" (Text "جانبي") neutral 0) a)
  else
    mret (push (contrib "الاتجاه (SMAs)" (Text "بيانات غير كافية") neutral 0) a).

(** 2. RSI analysis (lines 239-251) *)
Definition rule_rsi (indicators : bundle) (a : analysis) : completion analysis :=
  if defined (opt_chain (rsi indicators) current) then
    r ← prop (rsi indicators);
    if lt (current r) (JNum 30) then
      v ← toFixed2 (current r);
      mret (score_add (W.rsi weights)
              (push (contrib "RSI" (Fixed2 v) buy (W.rsi weights)) a))
    else if gt (current r) (JNum 70) then
      v ← toFixed2 (current r);
      mret (score_sub (W.rsi weights)
              (push (contrib "RSI" (Fixed2 v) sell (W.rsi weights)) a))
    else
      v ← toFixed2 (current r);
      mret (push (contrib "RSI" (Fixed2 v) neutral 0) a)
  else
    mret (push (contrib "RSI" (Text "بيانات غير كافية") neutral 0) a).

(** 3. Moving averages crossover 20/50 (lines 254-274) *)
Definition rule_smaCrossover (indicators : bundle) (a : analysis) : completion analysis :=
  enough ←
    defined (opt_chain (sma20 indicators) current) &&>
    (s20 ← prop (sma20 indicators);
     bool_decide (1 < len (values s20))%Z &&>
     defined (opt_chain (sma50 indicators) current) &&>
     (s50 ← prop (sma50 indicators);
      mret (bool_decide (1 < len (values s50))%Z)));
  if enough : bool then
    s20 ← prop (sma20 indicators);
    s50 ← prop (sma50 indicators);
    let previousSma20 := index (values s20) (len (values s20) - 2) in
    let previousSma50 := index (values s50) (len (values s50) - 2) in
    if defined previousSma20 && defined previousSma50
       && negb (isNaN previousSma20) && negb (isNaN previousSma50) then
      if gt (current s20) (current s50) && le previousSma20 previousSma50 then
        mret (score_add (W.smaCrossover weights)
                (push (contrib "تقاطع المتوسطات (20/50)" (Text "إيجابي (تقاطع صعودي)")
                         buy (W.smaCrossover weights)) a))
      else if lt (current s20) (current s50) && ge previousSma20 previousSma50 then
        mret (score_sub (W.smaCrossover weights)
                (push (contrib "تقاطع المتوسطات (20/50)" (Text "سلبي (تقاطع هبوطي)")
                         sell (W.smaCrossover weights)) a))
      else
        mret (push (contrib "تقاطع المتوسطات (20/50)" (Text "لا يوجد تقاطع واضح")
                      neutral 0) a)
    else
      mret (push (contrib "تقاطع المتوسطات (20/50)"
                    (Text "بيانات سابقة غير كافية أو غير صالحة") neutral 0) a)
  else
    mret (push (contrib "تقاطع المتوسطات (20/50)" (Text "بيانات غير كافية") neutral 0) a).

(** 4. MACD analysis (lines 277-313) *)
Definition rule_macd (indicators : bundle) (a : analysis) : completion analysis :=
  enough ←
    length_gt1 (m ← macd indicators; Macd.MACD m) &&>
    (m ← prop (macd indicators);
     length_gt1 (Macd.signal m) &&>
     (m' ← prop (macd indicators);
      mret (length_gt1 (Macd.histogram m'))));
  if enough : bool then
    m ← prop (macd indicators);
    arrMACD ← prop (Macd.MACD m);
    arrSignal ← prop (Macd.signal m);
    arrHistogram ← prop (Macd.histogram m);
    let previousMACD := index arrMACD (len arrMACD - 2) in
    let previousSignal := index arrSignal (len arrSignal - 2) in
    let currentMACD := Macd.currentMACD m in
    let currentSignal := Macd.currentSignal m in
    let currentHistogram := index arrHistogram (len arrHistogram - 1) in
    let previousHistogram := index arrHistogram (len arrHistogram - 2) in
    if defined currentMACD && defined currentSignal
       && defined previousMACD && defined previousSignal
       && defined currentHistogram && defined previousHistogram
       && negb (isNaN currentMACD) && negb (isNaN currentSignal) then
      if gt currentMACD currentSignal && le previousMACD previousSignal then
        mret (score_add (W.macd weights * 0.7)
                (push (contrib "MACD" (Text "تقاطع إيجابي") buy
                         (W.macd weights * 0.7)) a))
      else if lt currentMACD currentSignal && ge previousMACD previousSignal then
        mret (score_sub (W.macd weights * 0.7)
                (push (contrib "MACD" (Text "تقاطع سلبي") sell
                         (W.macd weights * 0.7)) a))
      else if gt currentHistogram (JNum 0) && le previousHistogram (JNum 0) then
        mret (score_add (W.macd weights * 0.3)
                (push (contrib "MACD" (Text "تزايد الزخم الصعودي (هستوجرام)") buy
                         (W.macd weights * 0.3)) a))
      else if lt currentHistogram (JNum 0) && ge previousHistogram (JNum 0) then
        mret (score_sub (W.macd weights * 0.3)
                (push (contrib "MACD" (Text "تزايد الزخم الهبوطي (هستوجرام)") sell
                         (W.macd weights * 0.3)) a))
      else
        mret (push (contrib "MACD" (Text "محايد") neutral 0) a)
    else
      mret (push (contrib "MACD" (Text "بيانات سابقة غير كافية أو غير صالحة") neutral 0) a)
  else
    mret (push (contrib "MACD" (Text "بيانات غير كافية") neutral 0) a).

(** 5. Volume analysis (lines 316-334) *)
Definition rule_volume (indicators : bundle) (currentPrice previousPrice : jsval)
    (a : analysis) : completion analysis :=
  if defined (opt_chain (volumeSma20 indicators) current)
     && defined currentPrice && defined previousPrice
     && negb (isNaN currentPrice) && negb (isNaN previousPrice) then
    volumeRatio ←
      (if defined (currentVolume indicators) then
         v ← prop (volumeSma20 indicators);
         mret (to_number (currentVolume indicators) / to_number (current v))%float
       else mret 0%float);
    let priceIncreased := gt currentPrice previousPrice in
    let priceDecreased := lt currentPrice previousPrice in
    if gt (JNum volumeRatio) (JNum 1.5) && priceIncreased then
      mret (score_add (W.volume weights)
              (push (contrib "حجم التداول" (Template "مرتفع (" volumeRatio "x Avg) مع صعود")
                       buy (W.volume weights)) a))
    else if gt (JNum volumeRatio) (JNum 1.5) && priceDecreased then
      mret (score_sub (W.volume weights)
              (push (contrib "حجم التداول" (Template "مرتفع (" volumeRatio "x Avg) مع هبوط")
                       sell (W.volume weights)) a))
    else
      mret (push (contrib "حجم التداول" (Template "طبيعي (" volumeRatio "x Avg)")
                    neutral 0) a)
  else
    mret (push (contrib "حجم التداول" (Text "بيانات غير كافية أو غير صالحة") neutral 0) a).

(** Determine Final Decision (lines 337-351) *)
Definition buyThreshold : float := (maxPossibleScore * W.thresholds.buy)%float.
Definition sellThreshold : float := (maxPossibleScore * W.thresholds.sell)%float.

Definition final_decision (a : analysis) : analysis :=
  if (buyThreshold <=? score a)%float then
    let confidenceRange := (maxPossibleScore - buyThreshold)%float in
    set_decision buy
      (if (0 <? confidenceRange)%float
       then math_min 1 ((score a - buyThreshold) / confidenceRange)
       else 1)%float a
  else if (score a <=? sellThreshold)%float then
    let confidenceRange := (maxPossibleScore - abs sellThreshold)%float in
    set_decision sell
      (if (0 <? confidenceRange)%float
       then math_min 1 ((abs (score a) - abs sellThreshold) / confidenceRange)
       else 1)%float a
  else
    set_decision neutral 0%float a.

(** The object [analysis] starts from (lines 210-215). *)
Definition initial : analysis :=
  {| signals := []; score := 0; decision := neutral; confidence := 0 |}.

Definition performAnalysis (indicators : bundle) (currentPrice previousPrice : jsval)
    : completion analysis :=
  a1 ← rule_trend indicators currentPrice initial;
  a2 ← rule_rsi indicators a1;
  a3 ← rule_smaCrossover indicators a2;
  a4 ← rule_macd indicators a3;
  a5 ← rule_volume indicators currentPrice previousPrice a4;
  mret (final_decision a5).

(** *** calculateIndicators (lines 131-206) *)

(** The functions imported from the package [technicalindicators].  They
    are not part of this repository: everything below holds for any
    implementation.  A result of [None] is a falsy return value; a missing
    property of a returned object is [None] as well. *)
Module TI.
Record macd_out := {
  MACD : option (list jsval);
  signal : option (list jsval);
  histogram : option (list jsval) }.
Record bb_out := {
  upper : option (list jsval);
  middle : option (list jsval);
  lower : option (list jsval) }.
Record stochastic_out := {
  k : option (list jsval);
  d : option (list jsval) }.
Record t := {
  sma : list float → Z → option (list jsval);
  rsi : list float → Z → option (list jsval);
(** values, fastPeriod, slowPeriod, signalPeriod, SimpleMAOscillator,
    SimpleMASignal *)
  macd : list float → Z → Z → Z → bool → bool → option macd_out;
(** values, period, stdDev *)
  bollingerbands : list float → Z → float → option bb_out;
(** high, low, close, period, signalPeriod, simpleMA *)
  stochastic : list float → list float → list float → Z → Z → bool
               → option stochastic_out }.
End TI.

(** [arr?.length > 0 ? arr[arr.length - 1] : undefined] *)
Definition opt_last (o : option (list jsval)) : jsval :=
  match o with Some arr => last_or_undefined arr | None => JUndef end.

(** [{ values: arr, current: arr.length > 0 ? arr[arr.length - 1] : undefined }] *)
Definition with_current (arr : list jsval) : series :=
  {| values := arr; current := last_or_undefined arr |}.

(** The [macd], [bollingerbands] and [stochastic] properties of the
    returned object (lines 181-202): the arrays with their last elements,
    or [{}] when the library result is falsy. *)
Definition macd_entry (r : option TI.macd_out) : Macd.t :=
  match r with
  | Some m =>
      {| Macd.MACD := Some (default [] (TI.MACD m));
         Macd.signal := Some (default [] (TI.signal m));
         Macd.histogram := Some (default [] (TI.histogram m));
         Macd.currentMACD := opt_last (TI.MACD m);
         Macd.currentSignal := opt_last (TI.signal m);
         Macd.currentHistogram := opt_last (TI.histogram m) |}
  | None => Macd.empty
  end.

Definition bollingerbands_entry (r : option TI.bb_out) : Bollinger.t :=
  match r with
  | Some b =>
      {| Bollinger.upper := Some (default [] (TI.upper b));
         Bollinger.middle := Some (default [] (TI.middle b));
         Bollinger.lower := Some (default [] (TI.lower b));
         Bollinger.currentUpper := opt_last (TI.upper b);
         Bollinger.currentMiddle := opt_last (TI.middle b);
         Bollinger.currentLower := opt_last (TI.lower b) |}
  | None => Bollinger.empty
  end.

Definition stochastic_entry (r : option TI.stochastic_out) : Stochastic.t :=
  match r with
  | Some st =>
      {| Stochastic.k := Some (default [] (TI.k st));
         Stochastic.d := Some (default [] (TI.d st));
         Stochastic.currentK := opt_last (TI.k st);
         Stochastic.currentD := opt_last (TI.d st) |}
  | None => Stochastic.empty
  end.

(** The guard of line 164. *)
Definition stochastic_guard (highPrices lowPrices closePrices : list float) : bool :=
  bool_decide (18 ≤ len highPrices)%Z && bool_decide (18 ≤ len lowPrices)%Z
  && bool_decide (18 ≤ len closePrices)%Z.

Definition calculateIndicators (lib : TI.t) (klines : list Kline.t) : bundle :=
  let closePrices := Kline.close <$> klines in
  let volumes := Kline.volume <$> klines in
  let highPrices := Kline.high <$> klines in
  let lowPrices := Kline.low <$> klines in
  let i_sma20 :=
    if bool_decide (20 ≤ len closePrices)%Z
    then default [] (TI.sma lib closePrices 20) else [] in
  let i_sma50 :=
    if bool_decide (50 ≤ len closePrices)%Z
    then default [] (TI.sma lib closePrices 50) else [] in
  let i_sma200 :=
    if bool_decide (200 ≤ len closePrices)%Z
    then default [] (TI.sma lib closePrices 200) else [] in
  let i_rsi :=
    if bool_decide (14 ≤ len closePrices)%Z
    then default [] (TI.rsi lib closePrices 14) else [] in
  let i_macd :=
    if bool_decide (34 ≤ len closePrices)%Z
    then TI.macd lib closePrices 12 26 9 false false else None in
  let i_bollingerbands :=
    if bool_decide (20 ≤ len closePrices)%Z
    then TI.bollingerbands lib closePrices 20 2%float else None in
  let i_stochastic :=
    if stochastic_guard highPrices lowPrices closePrices
    then TI.stochastic lib highPrices lowPrices closePrices 14 3 false else None in
  let i_volumeSma20 :=
    if bool_decide (20 ≤ len volumes)%Z
    then default [] (TI.sma lib volumes 20) else [] in
  {| sma20 := Some (with_current i_sma20);
     sma50 := Some (with_current i_sma50);
     sma200 := Some (with_current i_sma200);
     rsi := Some (with_current i_rsi);
     macd := Some (macd_entry i_macd);
     bollingerbands := Some (bollingerbands_entry i_bollingerbands);
     stochastic := Some (stochastic_entry i_stochastic);
     volumeSma20 := Some (with_current i_volumeSma20);
     currentVolume := last_or_undefined (JNum <$> volumes) |}.

(** *** fetchKlines (lines 91-128) *)

(** What a run can end with instead of results: the Error thrown at line
    113, a rejected [fetch] or [json()] (rethrown at line 126), the Error
    of line 519 (for an array, with the number of its elements; for
    another truthy body, with its [length]), the Error of line 527, or a
    TypeError raised on the way. *)
Inductive error : Type :=
| FetchFailed (status : Z) (statusText text : string)
| Rejected
| InsufficientData (fetched : Z) (required : Z)
| InsufficientLength (length : float) (required : Z)
| BadPrices
| Thrown (e : js_error).

(** Observable effects, in the order they happen. *)
Inductive event : Type :=
| Wait (ms : Z)
| Request (url : string).

(** The component's mutable state ([cachedData.current], [lastRequestTime])
    together with the clock [Date.now()] reads and the effects so far. *)
Record world := {
  cachedData : gmap string payload;
  lastRequestTime : Z;
  now : Z;
  trace : list event }.

(** [await new Promise(resolve => setTimeout(resolve, ms))] *)
Definition sleep (ms : Z) (w : world) : world :=
  {| cachedData := cachedData w; lastRequestTime := lastRequestTime w;
     now := (now w + ms)%Z; trace := trace w ++ [Wait ms] |}.

Definition request (url : string) (w : world) : world :=
  {| cachedData := cachedData w; lastRequestTime := lastRequestTime w;
     now := now w; trace := trace w ++ [Request url] |}.

(** [cachedData.current[cacheKey] = data; setLastRequestTime(Date.now())] *)
Definition store (cacheKey : string) (data : payload) (w : world) : world :=
  {| cachedData := <[cacheKey := data]> (cachedData w); lastRequestTime := now w;
     now := now w; trace := trace w |}.

Definition cacheKey (symbol interval : string) (limit : N) : string :=
  symbol +:+ "-" +:+ interval +:+ "-" +:+ pretty limit.

Definition apiUrl (symbol interval : string) (limit : N) : string :=
  CONFIG.api.baseUrl +:+ "?symbol=" +:+ symbol +:+ "&interval=" +:+ interval
  +:+ "&limit=" +:+ pretty limit.

(** Truthiness of [cachedData.current[cacheKey]]: a missing entry is
    [undefined], and every payload but the falsy one is truthy.  (A key
    always contains [-], so it never names an inherited property of the
    cache object.) *)
Definition cached (w : world) (key : string) : option payload :=
  match cachedData w !! key with
  | Some (PRows rows) => Some (PRows rows)
  | Some (POther length) => Some (POther length)
  | Some PNull | None => None
  end.

Definition fetchKlines (net : string → response)
    (symbol interval : string) (limit : N) (w : world) : result error payload * world :=
  let key := cacheKey symbol interval limit in
  match cached w key with
  | Some data => (Ok data, w)
  | None =>
      let timeSinceLastRequest := (now w - lastRequestTime w)%Z in
      let w1 :=
        if bool_decide (timeSinceLastRequest < CONFIG.api.rateLimit)%Z
        then sleep (CONFIG.api.rateLimit - timeSinceLastRequest) w else w in
      let url := apiUrl symbol interval limit in
      let w2 := request url w1 in
      match net url with
      | NetworkFailure => (Err Rejected, w2)
      | Http false status statusText text _ =>
          (Err (FetchFailed status statusText text), w2)
      | Http true _ _ _ None => (Err Rejected, w2)
      | Http true _ _ _ (Some data) => (Ok data, store key data w2)
      end
  end.

(** *** analyzeMarket (lines 510-547) *)

(** The object handed to [setResults].  Its [klines] is the fetched
    array, no element of which is [null] by then. *)
Record results := {
  r_symbol : string;
  r_currentPrice : jsval;
  r_indicators : bundle;
  r_analysis : analysis;
  r_klines : list Kline.t }.

Definition analyzeMarket (net : string → response) (lib : TI.t)
    (symbol timeframe : string) (w : world) : result error results * world :=
  match fetchKlines net symbol timeframe CONFIG.api.defaultLimit w with
  | (Err e, w') => (Err e, w')
  | (Ok PNull, w') =>
      (Err (InsufficientData 0 CONFIG.indicators.minDataPoints), w')
  | (Ok (POther length), w') =>
      if lt length (JNum 200) then
        (Err (InsufficientLength (to_number length) CONFIG.indicators.minDataPoints), w')
      else (Err (Thrown TypeError), w')
  | (Ok (PRows rows), w') =>
      if bool_decide (len rows < CONFIG.indicators.minDataPoints)%Z then
        (Err (InsufficientData (len rows) CONFIG.indicators.minDataPoints), w')
      else
        match map_rows (PRows rows) with
        | Throw e => (Err (Thrown e), w')
        | Normal klines =>
            let prices := Kline.close <$> klines in
            let currentPrice := last_or_undefined (JNum <$> prices) in
            let previousPrice :=
              if bool_decide (1 < len prices)%Z
              then index (JNum <$> prices) (len prices - 2) else JUndef in
            if negb (defined currentPrice) || negb (defined previousPrice)
               || existsb is_nan prices then
              (Err BadPrices, w')
            else
              let indicators := calculateIndicators lib klines in
              match performAnalysis indicators currentPrice previousPrice with
              | Throw e => (Err (Thrown e), w')
              | Normal analysis =>
                  (Ok {| r_symbol := symbol; r_currentPrice := currentPrice;
                         r_indicators := indicators; r_analysis := analysis;
                         r_klines := klines |}, w')
              end
        end
  end.

(** *** The options of the two selectors (lines 73-88): value and label *)

Definition tradingPairs : list (string * string) := [
  ("BTCUSDT", "BTC/USDT");
  ("ETHUSDT", "ETH/USDT");
  ("BNBUSDT", "BNB/USDT");
  ("SOLUSDT", "SOL/USDT");
  ("XRPUSDT", "XRP/USDT");
  ("ADAUSDT", "ADA/USDT");
  ("DOGEUSDT", "DOGE/USDT") ].

Definition timeframes : list (string * string) := [
  ("15m", "15 دقيقة");
  ("1h", "1 ساعة");
  ("4h", "4 ساعات");
  ("1d", "1 يوم") ].

(** *** SignalPanel (lines 656-691): the numbers it prints *)

#[global] Instance direction_eq_dec : EqDecision direction :=
  ltac:(solve_decision).

(** [Math.round(analysis.confidence * 100)] (lines 668, 676, 684), for a
    value that rounds to one of 0, ..., 100. *)
Definition confidence_percent (a : analysis) : option Z :=
  math_round_from 101 0 0 (confidence a * 100)%float.

(** [analysis.signals.filter(s => s.signal === 'buy').length] (line 669)
    and its counterpart for ['sell'] (line 677). *)
Definition count_signals (d : direction) (a : analysis) : nat :=
  length (filter (λ s, signal s = d) (signals a)).

End Jj.

(* ===================================================================== *)
(** ** src/unnamed/part_000                                               *)
(* ===================================================================== *)

Module Part000.

(** [new Error(message)] *)
Inductive error : Type :=
| Error (message : string).

(** Lines 32-37. *)
Definition endpoints : list string := [
  "https://api.binance.com";
  "https://api1.binance.com";
  "https://api2.binance.com";
  "https://api3.binance.com" ].

Definition klinesUrl (endpoint symbol interval : string) (limit : N) : string :=
  endpoint +:+ "/api/v3/klines?symbol=" +:+ symbol +:+ "&interval=" +:+ interval
  +:+ "&limit=" +:+ pretty limit.

(** [response.ok], then [data && data.length >= 50] on the decoded body
    (lines 51-53), whatever the body is; a rejected [fetch] or [json()]
    lands in the [catch]. *)
Definition satisfying (r : response) : option payload :=
  match r with
  | Http true _ _ _ (Some (PRows rows)) =>
      if bool_decide (50 ≤ len rows)%Z then Some (PRows rows) else None
  | Http true _ _ _ (Some (POther length)) =>
      if ge length (JNum 50) then Some (POther length) else None
  | _ => None
  end.

(** The [for (const endpoint of endpoints)] loop (lines 39-61): the result,
    and the URLs requested, in order. *)
Fixpoint try_endpoints (net : string → response) (symbol interval : string)
    (limit : N) (remaining : list string) : result error payload * list string :=
  match remaining with
  | [] => (Err (Error "جميع نقاط الوصول غير متوفرة في موقعك الجغرافي"), [])
  | endpoint :: rest =>
      let url := klinesUrl endpoint symbol interval limit in
      match satisfying (net url) with
      | Some data => (Ok data, [url])
      | None =>
          let '(r, requested) := try_endpoints net symbol interval limit rest in
          (r, url :: requested)
      end
  end.

Definition fetchKlines (net : string → response) (symbol interval : string)
    (limit : N) : result error payload * list string :=
  try_endpoints net symbol interval limit endpoints.

(** *** analyzeMarket (lines 65-98) and getErrorMessage (lines 101-116) *)

(** The object handed to [setResults] (lines 83-88). *)
Module Results.
Record t := {
  symbol : string;
  currentPrice : jsval;
  klines : list Kline.t;
  dataPoints : Z }.
End Results.

(** What the [catch] block receives: an Error this script threw, or an
    error of the engine. *)
Inductive thrown : Type :=
| Raised (e : error)
| Native (e : js_error).

(** What [getErrorMessage] returns: the JSX block about the region (lines
    103-113) or the message itself.  The message of an engine error is
    engine text and is kept apart. *)
Inductive view : Type :=
| RegionHelp
| Plain (message : string)
| NativeMessage (e : js_error).

Definition getErrorMessage (e : thrown) : view :=
  match e with
  | Raised (Error message) =>
      if includes message "غير متوفرة في موقعك الجغرافي" then RegionHelp
      else Plain message
  | Native e => NativeMessage e
  end.

(** The React state the function writes. *)
Module State.
Record t := {
  isLoading : bool;
  results : option Results.t;
  error : option view }.
End State.

(** The [try] block (lines 70-90), up to the call of [drawChart], which
    only talks to the chart library.  The first [klines.map] is a
    TypeError on a body that is not an array and at a [null] element.
    ([previousPrice], line 79, is never used.) *)
Definition analyzeMarket_try (net : string → response) (symbol timeframe : string)
    : result thrown Results.t * list string :=
  match fetchKlines net symbol timeframe 200 with
  | (Err e, requested) => (Err (Raised e), requested)
  | (Ok data, requested) =>
      match map_rows data with
      | Throw e => (Err (Native e), requested)
      | Normal klines =>
          let prices := filter (λ x, truthy_number x) (Kline.close <$> klines) in
          let volumes := filter (λ x, truthy_number x) (Kline.volume <$> klines) in
          if bool_decide (len prices < 50)%Z || bool_decide (len volumes < 50)%Z then
            (Err (Raised (Error "بيانات غير كافية للتحليل")), requested)
          else
            let currentPrice := index (JNum <$> prices) (len prices - 1) in
            (Ok {| Results.symbol := symbol; Results.currentPrice := currentPrice;
                   Results.klines := klines; Results.dataPoints := len prices |},
             requested)
      end
  end.

(** The whole function: [setIsLoading(true); setError(null)], the [try]
    block, [setError(getErrorMessage(error))] in the [catch], and
    [setIsLoading(false)] in the [finally].  [results] is only written on
    success. *)
Definition analyzeMarket (net : string → response) (symbol timeframe : string)
    (st : State.t) : State.t * list string :=
  match analyzeMarket_try net symbol timeframe with
  | (Ok r, requested) =>
      ({| State.isLoading := false; State.results := Some r; State.error := None |},
       requested)
  | (Err e, requested) =>
      ({| State.isLoading := false; State.results := State.results st;
          State.error := Some (getErrorMessage e) |}, requested)
  end.

End Part000.

(* ===================================================================== *)
(** ** Vocabulary of the statements                                       *)
(* ===================================================================== *)

Import Jj.

(** What one contribution does to the running score: [+= weight] for a buy
    entry, [-= weight] for a sell entry, nothing for a neutral one. *)
Definition signed (s : float) (c : contribution) : float :=
  match signal c with
  | buy => (s + weight c)%float
  | sell => (s - weight c)%float
  | neutral => s
  end.

(** A rule's whole effect: push the entry and move the score. *)
Definition applied (c : contribution) (a : analysis) : analysis :=
  {| signals := signals a ++ [c]; score := signed (score a) c;
     decision := decision a; confidence := confidence a |}.

(** The three entries a rule of weight [w] can push. *)
Inductive vote (w : float) : contribution → Prop :=
| vote_buy n v : vote w (contrib n v buy w)
| vote_sell n v : vote w (contrib n v sell w)
| vote_neutral n v : vote w (contrib n v neutral 0).

(** A neutral entry of weight 0. *)
Definition abstains (c : contribution) : Prop :=
  signal c = neutral ∧ weight c = 0%float.

(** [o?.current === undefined] *)
Definition no_current (o : option series) : Prop := opt_chain o current = JUndef.

(** Fewer than two elements, or no array at all. *)
Definition too_short (o : option (list jsval)) : Prop := length_gt1 o = false.

(** The MACD rule has nothing to compare: an array is missing or has fewer
    than two elements, or a current value is [undefined]. *)
Definition macd_absent (o : option Macd.t) : Prop :=
  too_short (o ≫= Macd.MACD) ∨ too_short (o ≫= Macd.signal)
  ∨ too_short (o ≫= Macd.histogram)
  ∨ opt_chain o Macd.currentMACD = JUndef ∨ opt_chain o Macd.currentSignal = JUndef.

(** The analysis object after five entries and the final decision. *)
Definition tally (c1 c2 c3 c4 c5 : contribution) : analysis :=
  final_decision
    (applied c5 (applied c4 (applied c3 (applied c2 (applied c1 initial))))).

(** A body that [data && data.length >= 50] lets through: truthy, with a
    length of at least 50. *)
Definition long_enough (data : payload) : Prop :=
  match data with
  | PNull => False
  | PRows rows => (50 ≤ len rows)%Z
  | POther length => ge length (JNum 50) = true
  end.

(** An answer the failover loop stops at: a success status and a decoded
    body that is long enough. *)
Definition answers (r : response) (data : payload) : Prop :=
  ∃ status statusText text,
    r = Http true status statusText text (Some data) ∧ long_enough data.

(** The mirrors of part_000, lines 32-37, and the URL line 42 requests
    from one of them. *)
Definition mirrors : list string := [
  "https://api.binance.com";
  "https://api1.binance.com";
  "https://api2.binance.com";
  "https://api3.binance.com" ].

Definition mirror_url (symbol interval : string) (limit : N) (endpoint : string)
    : string :=
  endpoint +:+ "/api/v3/klines?symbol=" +:+ symbol +:+ "&interval=" +:+ interval
  +:+ "&limit=" +:+ pretty limit.

(** Closes that [filter(Boolean)] keeps: numbers other than 0. *)
Definition usable (xs : list float) : list float :=
  filter (λ x, truthy_number x) xs.

(** No [-] in the string. *)
Fixpoint dash_free (s : string) : bool :=
  match s with
  | EmptyString => true
  | String c rest => negb (String.eqb (String c EmptyString) "-") && dash_free rest
  end.

(** The bundle [calculateIndicators] builds when no guard holds a call
    back. *)
Definition unguarded (lib : TI.t) (klines : list Kline.t) : bundle :=
  let closePrices := Kline.close <$> klines in
  let volumes := Kline.volume <$> klines in
  let highPrices := Kline.high <$> klines in
  let lowPrices := Kline.low <$> klines in
  {| sma20 := Some (with_current (default [] (TI.sma lib closePrices 20)));
     sma50 := Some (with_current (default [] (TI.sma lib closePrices 50)));
     sma200 := Some (with_current (default [] (TI.sma lib closePrices 200)));
     rsi := Some (with_current (default [] (TI.rsi lib closePrices 14)));
     macd := Some (macd_entry (TI.macd lib closePrices 12 26 9 false false));
     bollingerbands :=
       Some (bollingerbands_entry (TI.bollingerbands lib closePrices 20 2%float));
     stochastic :=
       Some (stochastic_entry
               (TI.stochastic lib highPrices lowPrices closePrices 14 3 false));
     volumeSma20 := Some (with_current (default [] (TI.sma lib volumes 20)));
     currentVolume := last_or_undefined (JNum <$> volumes) |}.

(** A bundle with other Bollinger and stochastic entries. *)
Definition with_bands (b : bundle) (bb : option Bollinger.t)
    (st : option Stochastic.t) : bundle :=
  {| sma20 := sma20 b; sma50 := sma50 b; sma200 := sma200 b; rsi := rsi b;
     macd := macd b; bollingerbands := bb; stochastic := st;
     volumeSma20 := volumeSma20 b; currentVolume := currentVolume b |}.

(** The close of the last candle, [undefined] for an empty series. *)
Definition last_close (klines : list Kline.t) : jsval :=
  last_or_undefined (JNum <$> (Kline.close <$> klines)).

(** The Error of part_000, line 61 (the spec's DataUnavailable). *)
Definition DataUnavailable : Part000.error :=
  Part000.Error "جميع نقاط الوصول غير متوفرة في موقعك الجغرافي".

(* ===================================================================== *)
(** ** Sample inputs                                                      *)
(* ===================================================================== *)

Module Sample.

Definition flat (x : float) : option series :=
  Some {| values := [JNum x; JNum x]; current := JNum x |}.

Definition ramp (x y : float) : option series :=
  Some {| values := [JNum x; JNum y]; current := JNum y |}.

(** MACD line, signal line and histogram over the last two candles. *)
Definition macd_of (m0 m1 s0 s1 : float) : option Macd.t :=
  Some {| Macd.MACD := Some [JNum m0; JNum m1];
          Macd.signal := Some [JNum s0; JNum s1];
          Macd.histogram := Some [JNum (m0 - s0); JNum (m1 - s1)];
          Macd.currentMACD := JNum m1;
          Macd.currentSignal := JNum s1;
          Macd.currentHistogram := JNum (m1 - s1) |}.

(** Price 110 above SMA50 = 100 above SMA200 = 90 and RSI = 25; SMA20 has
    been above SMA50 all along, MACD below its signal line with a negative
    histogram, volume at its average. *)
Definition uptrend_oversold : bundle := {|
  sma20 := flat 105; sma50 := flat 100; sma200 := flat 90;
  rsi := flat 25;
  macd := macd_of (-2) (-2) (-1) (-1);
  bollingerbands := Some Bollinger.empty;
  stochastic := Some Stochastic.empty;
  volumeSma20 := flat 100; currentVolume := JNum 100 |}.

(** Price 80 below SMA50 = 90 below SMA200 = 100, everything else quiet. *)
Definition downtrend : bundle := {|
  sma20 := flat 85; sma50 := flat 90; sma200 := flat 100;
  rsi := flat 50;
  macd := macd_of (-2) (-2) (-1) (-1);
  bollingerbands := Some Bollinger.empty;
  stochastic := Some Stochastic.empty;
  volumeSma20 := flat 100; currentVolume := JNum 100 |}.

(** Every rule votes buy: uptrend, RSI 25, SMA20 crossing above SMA50, MACD
    crossing above its signal line, twice the average volume on a rise. *)
Definition all_buy : bundle := {|
  sma20 := ramp 99 105; sma50 := flat 100; sma200 := flat 90;
  rsi := flat 25;
  macd := macd_of (-1) 1 0 0;
  bollingerbands := Some Bollinger.empty;
  stochastic := Some Stochastic.empty;
  volumeSma20 := flat 100; currentVolume := JNum 200 |}.

(** Every rule votes sell. *)
Definition all_sell : bundle := {|
  sma20 := ramp 101 85; sma50 := flat 90; sma200 := flat 100;
  rsi := flat 75;
  macd := macd_of 1 (-1) 0 0;
  bollingerbands := Some Bollinger.empty;
  stochastic := Some Stochastic.empty;
  volumeSma20 := flat 100; currentVolume := JNum 200 |}.

(** No indicator had enough history. *)
Definition nothing : bundle := {|
  sma20 := Some (with_current []); sma50 := Some (with_current []);
  sma200 := Some (with_current []); rsi := Some (with_current []);
  macd := Some Macd.empty;
  bollingerbands := Some Bollinger.empty;
  stochastic := Some Stochastic.empty;
  volumeSma20 := Some (with_current []); currentVolume := JUndef |}.

(** A volume average but no current volume. *)
Definition no_volume : bundle := {|
  sma20 := flat 105; sma50 := flat 100; sma200 := flat 90;
  rsi := flat 50;
  macd := Some Macd.empty;
  bollingerbands := Some Bollinger.empty;
  stochastic := Some Stochastic.empty;
  volumeSma20 := flat 100; currentVolume := JUndef |}.

(** One candle, and a series of [n] of them. *)
Definition row : Kline.t := {|
  Kline.openTime := 1700000000000; Kline.open := 100; Kline.high := 102;
  Kline.low := 99; Kline.close := 101; Kline.volume := 10 |}.

Definition candles (n : nat) : list Kline.t := replicate n row.

(** The same as the array an exchange sends. *)
Definition series (n : nat) : list (option Kline.t) := Some <$> candles n.

(** A stand-in for the indicator package that answers every call with the
    same non-empty result, to tell a consulted library from a skipped one. *)
Definition fixed_lib : TI.t := {|
  TI.sma := λ _ _, Some [JNum 100; JNum 101];
  TI.rsi := λ _ _, Some [JNum 50; JNum 55];
  TI.macd := λ _ _ _ _ _ _, Some {|
    TI.MACD := Some [JNum 1; JNum 2];
    TI.signal := Some [JNum 1; JNum 1];
    TI.histogram := Some [JNum 0; JNum 1] |};
  TI.bollingerbands := λ _ _ _, Some {|
    TI.upper := Some [JNum 110]; TI.middle := Some [JNum 100];
    TI.lower := Some [JNum 90] |};
  TI.stochastic := λ _ _ _ _ _ _, Some {|
    TI.k := Some [JNum 40; JNum 50]; TI.d := Some [JNum 45; JNum 48] |} |}.

(** An exchange that answers every request with 17 candles, one that is
    unreachable, and one where only the third mirror answers, with 60
    candles. *)
Definition net_short : string → response :=
  λ _, Http true 200 "OK" "" (Some (PRows (series 17))).

Definition net_down : string → response := λ _, NetworkFailure.

Definition net_third : string → response :=
  λ url,
    if bool_decide (url = Part000.klinesUrl "https://api2.binance.com" "BTCUSDT" "1d" 200)
    then Http true 200 "OK" "" (Some (PRows (series 60)))
    else if bool_decide (url = Part000.klinesUrl "https://api3.binance.com" "BTCUSDT" "1d" 200)
    then Http true 200 "OK" "" (Some (PRows (series 60)))
    else NetworkFailure.

(** A component that has not fetched anything yet, five seconds in. *)
Definition fresh : world :=
  {| cachedData := ∅; lastRequestTime := 0; now := 5000; trace := [] |}.

(** An exchange that answers every request with 200 candles, and one
    that answers with 49. *)
Definition net_full : string → response :=
  λ _, Http true 200 "OK" "" (Some (PRows (series 200))).

Definition net_49 : string → response :=
  λ _, Http true 200 "OK" "" (Some (PRows (series 49))).

(** A candle whose close did not parse, and 200 candles ending in it. *)
Definition bad_row : Kline.t := {|
  Kline.openTime := 1700000000000; Kline.open := 100; Kline.high := 102;
  Kline.low := 99; Kline.close := nan; Kline.volume := 10 |}.

Definition net_bad : string → response :=
  λ _, Http true 200 "OK" "" (Some (PRows (series 199 ++ [Some bad_row]))).

(** An exchange whose body is a 66-character string, one whose body is an
    object without a length, and one whose 200 candles end in [null]. *)
Definition net_string : string → response :=
  λ _, Http true 200 "OK" "" (Some (POther (JNum 66))).

Definition net_object : string → response :=
  λ _, Http true 200 "OK" "" (Some (POther JUndef)).

Definition net_hole : string → response :=
  λ _, Http true 200 "OK" "" (Some (PRows (series 199 ++ [None]))).

(** The page of part_000 before its first run. *)
Definition blank : Part000.State.t := {|
  Part000.State.isLoading := false; Part000.State.results := None;
  Part000.State.error := None |}.

End Sample.

(* ===================================================================== *)
(** ** The five rules, one at a time                                      *)
(* ===================================================================== *)

Section Rules.
Variable indicators : bundle.
Variables currentPrice previousPrice : jsval.

(** Split the guards that held and discard branches whose guard cannot. *)
Local Ltac guards :=
  repeat match goal with
  | H : _ && _ = true |- _ => apply andb_prop in H as [? ?]
  | H : negb _ = true |- _ => apply negb_true_iff in H
  | H : bool_decide _ = true |- _ => apply bool_decide_eq_true_1 in H
  | H : bool_decide _ = false |- _ => apply bool_decide_eq_false_1 in H
  end.

Local Ltac rule_cases :=
  repeat match goal with
  | |- context [if ?b then _ else _] => destruct b eqn:?; simpl
  | |- context [match ?x with JUndef => _ | JNum _ => _ end] => destruct x eqn:?; simpl
  end.

(** From [x = JUndef] and a guard [defined x = true]. *)
Local Ltac undefined_guard :=
  guards;
  try match goal with
  | E : ?x = JUndef, H : defined ?x = true |- _ => rewrite E in H; discriminate H
  end;
  try congruence; try done.

Local Ltac close_rule :=
  guards; simpl in *;
  first
    [ exfalso; congruence
    | lazymatch goal with
      | |- context [contrib ?n ?v ?s ?w] => exists (contrib n v s w)
      end;
      (split; [intros a; reflexivity | split;
         [solve [constructor | left; constructor | right; constructor]
         | split; [reflexivity | ]]]) ].

Lemma rule_trend_votes :
  ∃ c, (∀ a, rule_trend indicators currentPrice a = Normal (applied c a))
       ∧ vote (W.trend weights) c
       ∧ name c = "الاتجاه (SMAs)"
       ∧ (no_current (sma50 indicators) ∨ no_current (sma200 indicators) → abstains c).
Proof.
  unfold rule_trend, no_current.
  destruct (sma50 indicators) as [s50|], (sma200 indicators) as [s200|]; simpl;
    rule_cases; close_rule; try done; intros [?|?]; undefined_guard.
Qed.

Lemma rule_rsi_votes :
  ∃ c, (∀ a, rule_rsi indicators a = Normal (applied c a))
       ∧ vote (W.rsi weights) c
       ∧ name c = "RSI"
       ∧ (no_current (rsi indicators) → abstains c).
Proof.
  unfold rule_rsi, no_current.
  destruct (rsi indicators) as [[vals [|x]]|]; simpl;
    rule_cases; close_rule; try done.
Qed.

Lemma rule_smaCrossover_votes :
  ∃ c, (∀ a, rule_smaCrossover indicators a = Normal (applied c a))
       ∧ vote (W.smaCrossover weights) c
       ∧ name c = "تقاطع المتوسطات (20/50)"
       ∧ (no_current (sma20 indicators) ∨ no_current (sma50 indicators) → abstains c).
Proof.
  unfold rule_smaCrossover, no_current, and_then.
  destruct (sma20 indicators) as [[v20 [|c20]]|],
           (sma50 indicators) as [[v50 [|c50]]|]; simpl;
    rule_cases; close_rule; try done; intros [?|?]; done.
Qed.

Lemma rule_macd_votes :
  ∃ c, (∀ a, rule_macd indicators a = Normal (applied c a))
       ∧ (vote (W.macd weights * 0.7) c ∨ vote (W.macd weights * 0.3) c)
       ∧ name c = "MACD"
       ∧ (macd_absent (macd indicators) → abstains c).
Proof.
  unfold rule_macd, macd_absent, too_short, and_then.
  destruct (macd indicators) as [[[aM|] [aS|] [aH|] cM cS cH]|]; simpl;
    rule_cases; close_rule; try done;
    intros [?|[?|[?|[?|?]]]]; undefined_guard.
Qed.

Lemma rule_volume_votes :
  ∃ c, (∀ a, rule_volume indicators currentPrice previousPrice a = Normal (applied c a))
       ∧ vote (W.volume weights) c
       ∧ name c = "حجم التداول"
       ∧ (no_current (volumeSma20 indicators) → abstains c).
Proof.
  unfold rule_volume, no_current.
  destruct (volumeSma20 indicators) as [[vals [|x]]|],
           (currentVolume indicators) as [|cv]; simpl;
    rule_cases; close_rule; try done.
Qed.

End Rules.

(* ===================================================================== *)
(** ** The Decision Engine as a whole                                     *)
(* ===================================================================== *)

(** Every run is five entries, one per rule and in the order of the rules,
    followed by the final decision. *)
Lemma performAnalysis_tally indicators currentPrice previousPrice :
  ∃ c1 c2 c3 c4 c5,
    performAnalysis indicators currentPrice previousPrice = Normal (tally c1 c2 c3 c4 c5)
    ∧ (∀ a, rule_trend indicators currentPrice a = Normal (applied c1 a))
    ∧ (∀ a, rule_rsi indicators a = Normal (applied c2 a))
    ∧ (∀ a, rule_smaCrossover indicators a = Normal (applied c3 a))
    ∧ (∀ a, rule_macd indicators a = Normal (applied c4 a))
    ∧ (∀ a, rule_volume indicators currentPrice previousPrice a = Normal (applied c5 a)).
Proof.
  destruct (rule_trend_votes indicators currentPrice) as (c1 & H1 & _).
  destruct (rule_rsi_votes indicators) as (c2 & H2 & _).
  destruct (rule_smaCrossover_votes indicators) as (c3 & H3 & _).
  destruct (rule_macd_votes indicators) as (c4 & H4 & _).
  destruct (rule_volume_votes indicators currentPrice previousPrice) as (c5 & H5 & _).
  exists c1, c2, c3, c4, c5. repeat split; try assumption.
  unfold performAnalysis, tally.
  rewrite H1; simpl. rewrite H2; simpl. rewrite H3; simpl. rewrite H4; simpl.
  rewrite H5; reflexivity.
Qed.

(** An entry is determined by what its rule does to any one analysis. *)
Lemma same_entry (rule : analysis → completion analysis) c c' :
  (∀ a, rule a = Normal (applied c a)) → (∀ a, rule a = Normal (applied c' a)) → c = c'.
Proof.
  intros H H'. specialize (H initial). rewrite H' in H.
  injection H as H _. congruence.
Qed.

(** The votes behind a run. *)
Lemma performAnalysis_votes indicators currentPrice previousPrice :
  ∃ c1 c2 c3 c4 c5,
    performAnalysis indicators currentPrice previousPrice = Normal (tally c1 c2 c3 c4 c5)
    ∧ vote (W.trend weights) c1
    ∧ vote (W.rsi weights) c2
    ∧ vote (W.smaCrossover weights) c3
    ∧ (vote (W.macd weights * 0.7) c4 ∨ vote (W.macd weights * 0.3) c4)
    ∧ vote (W.volume weights) c5.
Proof.
  destruct (performAnalysis_tally indicators currentPrice previousPrice)
    as (c1 & c2 & c3 & c4 & c5 & Hrun & H1 & H2 & H3 & H4 & H5).
  destruct (rule_trend_votes indicators currentPrice) as (d1 & G1 & V1 & _).
  destruct (rule_rsi_votes indicators) as (d2 & G2 & V2 & _).
  destruct (rule_smaCrossover_votes indicators) as (d3 & G3 & V3 & _).
  destruct (rule_macd_votes indicators) as (d4 & G4 & V4 & _).
  destruct (rule_volume_votes indicators currentPrice previousPrice) as (d5 & G5 & V5 & _).
  rewrite (same_entry _ _ _ H1 G1), (same_entry _ _ _ H2 G2), (same_entry _ _ _ H3 G3),
    (same_entry _ _ _ H4 G4), (same_entry _ _ _ H5 G5) in Hrun.
  by exists d1, d2, d3, d4, d5.
Qed.

(** Case analysis over the 3 * 3 * 3 * 5 * 3 combinations of votes. *)
Ltac each_vote :=
  repeat match goal with
  | H : vote _ _ ∨ vote _ _ |- _ => destruct H as [H|H]
  | H : vote _ ?c |- _ => destruct H
  end.

Lemma signals_tally c1 c2 c3 c4 c5 : signals (tally c1 c2 c3 c4 c5) = [c1; c2; c3; c4; c5].
Proof. unfold tally, final_decision. by repeat case_match. Qed.

Example uptrend_oversold_run :
  score <$> performAnalysis Sample.uptrend_oversold (JNum 110) (JNum 110) = Normal 50%float
  ∧ decision <$> performAnalysis Sample.uptrend_oversold (JNum 110) (JNum 110) = Normal neutral.
Proof. split; vm_compute; reflexivity. Qed.

Example all_buy_run :
  score <$> performAnalysis Sample.all_buy (JNum 110) (JNum 108) = Normal 95.5%float
  ∧ decision <$> performAnalysis Sample.all_buy (JNum 110) (JNum 108) = Normal buy
  ∧ confidence <$> performAnalysis Sample.all_buy (JNum 110) (JNum 108)
    = Normal (35.5 / 60)%float.
Proof. repeat split; vm_compute; reflexivity. Qed.

Example all_sell_run :
  score <$> performAnalysis Sample.all_sell (JNum 80) (JNum 82) = Normal (-95.5)%float
  ∧ decision <$> performAnalysis Sample.all_sell (JNum 80) (JNum 82) = Normal sell
  ∧ confidence <$> performAnalysis Sample.all_sell (JNum 80) (JNum 82)
    = Normal (35.5 / 60)%float.
Proof. repeat split; vm_compute; reflexivity. Qed.

Example nothing_run :
  (λ a, (score a, decision a, confidence a, weight <$> signals a))
    <$> performAnalysis Sample.nothing (JNum 80) (JNum 82)
  = Normal (0, neutral, 0, [0; 0; 0; 0; 0])%float.
Proof. vm_compute; reflexivity. Qed.

Lemma score_tally c1 c2 c3 c4 c5 :
  score (tally c1 c2 c3 c4 c5) = fold_left signed [c1; c2; c3; c4; c5] 0%float.
Proof. unfold tally, final_decision. by repeat case_match. Qed.

Lemma vote_weight w c :
  vote w c →
  match signal c with neutral => weight c = 0%float | _ => weight c = w end.
Proof. by destruct 1. Qed.

(** Closes a goal about a run once the votes are fixed. *)
Ltac by_votes indicators currentPrice previousPrice :=
  let Hrun := fresh "Hrun" in
  destruct (performAnalysis_votes indicators currentPrice previousPrice)
    as (c1 & c2 & c3 & c4 & c5 & Hrun & V1 & V2 & V3 & V4 & V5);
  exists (tally c1 c2 c3 c4 c5); split; [exact Hrun | clear Hrun];
  each_vote; vm_compute; intuition congruence.

(** C1, as stated, fails: a score of exactly 50 (uptrend +30, RSI below 30
    +20) is at the claimed buy threshold, yet the decision is neutral, and
    the maximum the thresholds are taken from is 120, not 100. *)
Lemma score_50_is_neutral :
  maxPossibleScore = 120%float
  ∧ score <$> performAnalysis Sample.uptrend_oversold (JNum 110) (JNum 110)
    = Normal 50%float
  ∧ decision <$> performAnalysis Sample.uptrend_oversold (JNum 110) (JNum 110)
    = Normal neutral.
Proof. repeat split; vm_compute; reflexivity. Qed.

(** C1, amended: the maximum the thresholds are fractions of is the sum of
    all seven configured weights, 30+20+20+15+15+10+10 = 120, so for every
    bundle and prices the decision is buy exactly when score >= 60, sell
    exactly when score <= -60, and neutral otherwise. *)
Theorem decision_thresholds indicators currentPrice previousPrice :
  maxPossibleScore = 120%float
  ∧ buyThreshold = 60%float
  ∧ sellThreshold = (-60)%float
  ∧ ∃ a, performAnalysis indicators currentPrice previousPrice = Normal a
      ∧ (decision a = buy ↔ (60 <=? score a)%float = true)
      ∧ (decision a = sell ↔ (score a <=? -60)%float = true)
      ∧ (decision a = neutral
         ↔ (60 <=? score a)%float = false ∧ (score a <=? -60)%float = false).
Proof.
  do 3 (split; [vm_compute; reflexivity | ]).
  by_votes indicators currentPrice previousPrice.
Qed.

(** C2: for every bundle, whatever is missing from it, and for every pair
    of prices (finite or not), performAnalysis completes normally, and the
    list of contributions is exactly five entries, one per rule in the
    order trend, RSI, SMA crossover, MACD, volume; a rule whose indicator
    data is absent contributes a neutral entry of weight 0. *)
Theorem performAnalysis_five_contributions indicators currentPrice previousPrice :
  ∃ a c1 c2 c3 c4 c5,
    performAnalysis indicators currentPrice previousPrice = Normal a
    ∧ signals a = [c1; c2; c3; c4; c5]
    ∧ name c1 = "الاتجاه (SMAs)"
    ∧ name c2 = "RSI"
    ∧ name c3 = "تقاطع المتوسطات (20/50)"
    ∧ name c4 = "MACD"
    ∧ name c5 = "حجم التداول"
    ∧ (no_current (sma50 indicators) ∨ no_current (sma200 indicators) → abstains c1)
    ∧ (no_current (rsi indicators) → abstains c2)
    ∧ (no_current (sma20 indicators) ∨ no_current (sma50 indicators) → abstains c3)
    ∧ (macd_absent (macd indicators) → abstains c4)
    ∧ (no_current (volumeSma20 indicators) → abstains c5).
Proof.
  destruct (performAnalysis_tally indicators currentPrice previousPrice)
    as (c1 & c2 & c3 & c4 & c5 & Hrun & H1 & H2 & H3 & H4 & H5).
  destruct (rule_trend_votes indicators currentPrice) as (d1 & G1 & _ & N1 & A1).
  destruct (rule_rsi_votes indicators) as (d2 & G2 & _ & N2 & A2).
  destruct (rule_smaCrossover_votes indicators) as (d3 & G3 & _ & N3 & A3).
  destruct (rule_macd_votes indicators) as (d4 & G4 & _ & N4 & A4).
  destruct (rule_volume_votes indicators currentPrice previousPrice)
    as (d5 & G5 & _ & N5 & A5).
  rewrite (same_entry _ _ _ H1 G1), (same_entry _ _ _ H2 G2), (same_entry _ _ _ H3 G3),
    (same_entry _ _ _ H4 G4), (same_entry _ _ _ H5 G5) in Hrun.
  exists (tally d1 d2 d3 d4 d5), d1, d2, d3, d4, d5.
  split; [exact Hrun | ]. split; [apply signals_tally | ].
  by repeat (split; [assumption | ]).
Qed.

(** C3: for every input the score lies between -maxPossibleScore and
    +maxPossibleScore, the confidence between 0 and 1, and the confidence
    is exactly 0 whenever the decision is neutral. *)
Theorem score_and_confidence_in_range indicators currentPrice previousPrice :
  ∃ a, performAnalysis indicators currentPrice previousPrice = Normal a
    ∧ (- maxPossibleScore <=? score a)%float = true
    ∧ (score a <=? maxPossibleScore)%float = true
    ∧ (0 <=? confidence a)%float = true
    ∧ (confidence a <=? 1)%float = true
    ∧ (decision a = neutral → confidence a = 0%float).
Proof. by_votes indicators currentPrice previousPrice. Qed.

(** C4, as stated, fails: in a plain downtrend the trend entry is a sell
    entry whose weight field is +30 while -30 was added to the score, so
    the weight fields sum to 30 and the score is -30. *)
Lemma sell_entry_has_positive_weight :
  (λ a, (signal <$> signals a !! 0%nat, weight <$> signals a !! 0%nat, score a,
         fold_left PrimFloat.add (weight <$> signals a) 0%float))
    <$> performAnalysis Sample.downtrend (JNum 80) (JNum 80)
  = Normal (Some sell, Some 30, -30, 30)%float.
Proof. vm_compute; reflexivity. Qed.

(** C4, amended: each contribution's weight field is the unsigned amount
    its rule moved the score by: the rule's positive weight for a buy and
    for a sell contribution alike, and 0 for a neutral one; the score is
    the sum over the contributions, in order, of +weight for buy entries
    and -weight for sell entries. *)
Theorem weight_is_unsigned_amount indicators currentPrice previousPrice :
  ∃ a, performAnalysis indicators currentPrice previousPrice = Normal a
    ∧ score a = fold_left signed (signals a) 0%float
    ∧ Forall (λ c, match signal c with
                   | neutral => weight c = 0%float
                   | _ => (0 <? weight c)%float = true
                   end) (signals a).
Proof.
  destruct (performAnalysis_votes indicators currentPrice previousPrice)
    as (c1 & c2 & c3 & c4 & c5 & Hrun & V1 & V2 & V3 & V4 & V5).
  exists (tally c1 c2 c3 c4 c5). split; [exact Hrun | ].
  rewrite signals_tally. split; [apply score_tally | ].
  repeat (apply Forall_cons; split); try apply Forall_nil; each_vote; by vm_compute.
Qed.

(** C9, as stated, fails: when all five rules vote buy the score is 95.5
    and the confidence is 35.5/60, about 0.59, above 61/130. *)
Lemma all_buy_confidence_above_61_130 :
  score <$> performAnalysis Sample.all_buy (JNum 110) (JNum 108) = Normal 95.5%float
  ∧ confidence <$> performAnalysis Sample.all_buy (JNum 110) (JNum 108)
    = Normal (35.5 / 60)%float
  ∧ (61 / 130 <? 35.5 / 60)%float = true.
Proof. repeat split; vm_compute; reflexivity. Qed.

(** C9, amended: for every input the absolute value of the score is at most
    95.5 = 30 + 20 + 20 + 0.7*15 + 15: the five entries carry weight 0 or
    their rule's weight (0.7 or 0.3 of it for MACD) and no entry carries
    the bb or stochastic weight; so the confidence never reaches 1: it is
    at most 71/120 (= 35.5/60, about 0.59), also on a maximal buy or sell
    signal. *)
Theorem score_at_most_95_5 indicators currentPrice previousPrice :
  ∃ a, performAnalysis indicators currentPrice previousPrice = Normal a
    ∧ (abs (score a) <=? 95.5)%float = true
    ∧ (confidence a <=? 71 / 120)%float = true
    ∧ (confidence a <? 1)%float = true
    ∧ Forall2 (λ c allowed, weight c ∈ allowed) (signals a)
        [ [0; 30]; [0; 20]; [0; 20]; [0; 10.5; 4.5]; [0; 15] ]%float.
Proof.
  destruct (performAnalysis_votes indicators currentPrice previousPrice)
    as (c1 & c2 & c3 & c4 & c5 & Hrun & V1 & V2 & V3 & V4 & V5).
  exists (tally c1 c2 c3 c4 c5). split; [exact Hrun | ].
  rewrite signals_tally.
  repeat split; [each_vote; by vm_compute.. | ].
  repeat (apply Forall2_cons; split); try apply Forall2_nil;
    each_vote; vm_compute; set_solver.
Qed.

(** C10: when the bundle has a volume average but no current volume, and
    both prices are numbers, the volume ratio is taken to be 0: the run
    completes normally and its volume entry is the neutral one, weight 0,
    showing a ratio of 0. *)
Theorem volume_ratio_zero_without_currentVolume indicators s v x y :
  currentVolume indicators = JUndef →
  volumeSma20 indicators = Some s →
  current s = JNum v →
  is_nan x = false →
  is_nan y = false →
  ∃ a, performAnalysis indicators (JNum x) (JNum y) = Normal a
    ∧ signals a !! 4%nat
      = Some (contrib "حجم التداول" (Template "طبيعي (" 0 "x Avg)") neutral 0).
Proof.
  intros Hcv Hs Hcur Hx Hy.
  destruct (performAnalysis_tally indicators (JNum x) (JNum y))
    as (c1 & c2 & c3 & c4 & c5 & Hrun & _ & _ & _ & _ & H5).
  exists (tally c1 c2 c3 c4 c5). split; [exact Hrun | ].
  rewrite signals_tally. simpl. f_equal.
  apply (same_entry (rule_volume indicators (JNum x) (JNum y))); [exact H5 | ].
  intros a. unfold rule_volume, isNaN. rewrite Hcv, Hs. simpl.
  rewrite Hcur, Hx, Hy. reflexivity.
Qed.

(** The volume entry of a run on [Sample.no_volume], prices 110 and 108. *)
Lemma volume_ratio_zero_witness :
  ∃ a, performAnalysis Sample.no_volume (JNum 110) (JNum 108) = Normal a
    ∧ signals a !! 4%nat
      = Some (contrib "حجم التداول" (Template "طبيعي (" 0 "x Avg)") neutral 0).
Proof.
  apply (volume_ratio_zero_without_currentVolume Sample.no_volume
           {| values := [JNum 100; JNum 100]; current := JNum 100 |} 100 110 108);
    reflexivity.
Defined.

(* ===================================================================== *)
(** ** The Indicator Pipeline                                             *)
(* ===================================================================== *)

Lemma len_fmap {A B} (f : A → B) (l : list A) : len (f <$> l) = len l.
Proof. unfold len. by rewrite length_fmap. Qed.

(** C8, as stated, fails: with 17 = 14 + 3 candles the stochastic entry is
    the empty object although the library would have answered; it is
    consulted from 18 candles on. *)
Lemma stochastic_skipped_at_17 :
  len (Sample.candles 17) = 17%Z
  ∧ stochastic (calculateIndicators Sample.fixed_lib (Sample.candles 17))
    = Some Stochastic.empty
  ∧ stochastic (calculateIndicators Sample.fixed_lib (Sample.candles 18))
    = Some {| Stochastic.k := Some [JNum 40; JNum 50];
              Stochastic.d := Some [JNum 45; JNum 48];
              Stochastic.currentK := JNum 50; Stochastic.currentD := JNum 48 |}.
Proof. repeat split; vm_compute; reflexivity. Qed.

(** C8, amended: the pipeline computes stochastic(14,3) exactly when the
    series has at least 18 candles (the 18 of CONFIG.indicators and of the
    guard); for any shorter series the stochastic entry of the bundle is
    empty, with its current values absent. *)
Theorem stochastic_computed_from_18 lib klines :
  stochastic (calculateIndicators lib klines)
  = Some (if bool_decide (18 ≤ len klines)%Z
          then stochastic_entry
                 (TI.stochastic lib (Kline.high <$> klines) (Kline.low <$> klines)
                    (Kline.close <$> klines) 14 3 false)
          else Stochastic.empty)
  ∧ Stochastic.currentK Stochastic.empty = JUndef
  ∧ Stochastic.currentD Stochastic.empty = JUndef.
Proof.
  split; [ | done]. unfold calculateIndicators, stochastic_guard; simpl.
  rewrite !len_fmap. by case_bool_decide.
Qed.

(* ===================================================================== *)
(** ** The Series Fetcher of jj.js                                        *)
(* ===================================================================== *)

(** What a successful fetch leaves behind. *)
Lemma fetchKlines_caches net symbol interval limit w rows w1 :
  fetchKlines net symbol interval limit w = (Ok (PRows rows), w1) →
  cached w1 (cacheKey symbol interval limit) = Some (PRows rows).
Proof.
  unfold fetchKlines.
  destruct (cached w _) as [data|] eqn:Hc.
  - intros [= -> <-]. exact Hc.
  - destruct (net _) as [|[] st stt txt [data|]]; intros [= -> <-].
    unfold cached, store; simpl. by rewrite lookup_insert_eq.
Qed.

Lemma fetchKlines_hit net symbol interval limit w data :
  cached w (cacheKey symbol interval limit) = Some data →
  fetchKlines net symbol interval limit w = (Ok data, w).
Proof. unfold fetchKlines. by intros ->. Qed.

(** C6: a second call with the key of an earlier successful call returns
    the cached series at once: the world after it is the world before it,
    so nothing was requested, nothing was waited for, and the cache and
    the last-request timestamp are untouched, whatever the network would
    have answered. *)
Theorem second_fetch_served_from_cache net net' symbol interval limit w rows w1 :
  fetchKlines net symbol interval limit w = (Ok (PRows rows), w1) →
  fetchKlines net' symbol interval limit w1 = (Ok (PRows rows), w1).
Proof.
  intros H. apply fetchKlines_hit. by eapply fetchKlines_caches.
Qed.

(** A first call answered with 17 candles, then a second one with the
    exchange unreachable. *)
Lemma second_fetch_witness :
  fetchKlines Sample.net_down "BTCUSDT" "1h" 300
    (fetchKlines Sample.net_short "BTCUSDT" "1h" 300 Sample.fresh).2
  = (Ok (PRows (Sample.series 17)),
     (fetchKlines Sample.net_short "BTCUSDT" "1h" 300 Sample.fresh).2).
Proof.
  apply (second_fetch_served_from_cache Sample.net_short Sample.net_down
           "BTCUSDT" "1h" 300 Sample.fresh).
  reflexivity.
Defined.

(** A fetch that misses the cache and gets a decoded body stores it. *)
Lemma fetchKlines_miss net symbol interval limit w status statusText text data :
  cached w (cacheKey symbol interval limit) = None →
  net (apiUrl symbol interval limit) = Http true status statusText text (Some data) →
  ∃ w1, fetchKlines net symbol interval limit w = (Ok data, w1)
    ∧ cachedData w1 !! cacheKey symbol interval limit = Some data.
Proof.
  intros Hc Hnet. unfold fetchKlines. rewrite Hc, Hnet.
  eexists; split; [reflexivity | ]. simpl. by rewrite lookup_insert_eq.
Qed.

(** C5: when the fetch succeeds with fewer candles than the 200 the
    analysis requires, the short series is nevertheless stored under its
    key, so that a later request with the same key returns it without
    touching the network, and the run ends with the insufficient-data
    error instead of results. *)
Theorem short_series_is_cached_and_rejected
    net lib symbol timeframe w status statusText text rows :
  cached w (cacheKey symbol timeframe CONFIG.api.defaultLimit) = None →
  net (apiUrl symbol timeframe CONFIG.api.defaultLimit)
    = Http true status statusText text (Some (PRows rows)) →
  (len rows < 200)%Z →
  ∃ w', analyzeMarket net lib symbol timeframe w
        = (Err (InsufficientData (len rows) 200), w')
    ∧ cachedData w' !! cacheKey symbol timeframe CONFIG.api.defaultLimit
      = Some (PRows rows)
    ∧ ∀ net', fetchKlines net' symbol timeframe CONFIG.api.defaultLimit w'
              = (Ok (PRows rows), w').
Proof.
  intros Hc Hnet Hshort.
  destruct (fetchKlines_miss _ _ _ _ _ _ _ _ _ Hc Hnet) as (w1 & Hfetch & Hstored).
  exists w1. split; [ | split; [exact Hstored | ]].
  - unfold analyzeMarket. rewrite Hfetch.
    change CONFIG.indicators.minDataPoints with 200%Z.
    by rewrite bool_decide_eq_true_2.
  - intros net'. apply fetchKlines_hit. by eapply fetchKlines_caches.
Qed.

(** A first run on an exchange that answers with 17 candles. *)
Lemma short_series_witness :
  ∃ w', analyzeMarket Sample.net_short Sample.fixed_lib "BTCUSDT" "1h" Sample.fresh
        = (Err (InsufficientData (len (Sample.series 17)) 200), w')
    ∧ cachedData w' !! cacheKey "BTCUSDT" "1h" CONFIG.api.defaultLimit
      = Some (PRows (Sample.series 17))
    ∧ ∀ net', fetchKlines net' "BTCUSDT" "1h" CONFIG.api.defaultLimit w'
              = (Ok (PRows (Sample.series 17)), w').
Proof.
  apply (short_series_is_cached_and_rejected Sample.net_short Sample.fixed_lib
           "BTCUSDT" "1h" Sample.fresh 200 "OK" "" (Sample.series 17));
    [reflexivity | reflexivity | by vm_compute].
Defined.

(** A cached [null] is falsy, so it is fetched again. *)
Example null_payload_is_refetched :
  trace (fetchKlines Sample.net_short "BTCUSDT" "1h" 300
           {| cachedData := {[ cacheKey "BTCUSDT" "1h" 300 := PNull ]};
              lastRequestTime := 0; now := 5000; trace := [] |}).2
  = [Request (apiUrl "BTCUSDT" "1h" 300)].
Proof. reflexivity. Qed.

(** The throttle: a miss less than a second after the last request first
    waits out the rest of the second. *)
Example fetch_waits_out_the_second :
  trace (fetchKlines Sample.net_short "BTCUSDT" "1h" 300
           {| cachedData := ∅; lastRequestTime := 4600; now := 5000; trace := [] |}).2
  = [Wait 600; Request (apiUrl "BTCUSDT" "1h" 300)].
Proof. reflexivity. Qed.

(* ===================================================================== *)
(** ** The failover Fetcher of part_000                                   *)
(* ===================================================================== *)

Lemma satisfying_failure :
  Part000.satisfying NetworkFailure = None
  ∧ ∀ status statusText text json,
      Part000.satisfying (Http false status statusText text json) = None.
Proof. done. Qed.

(** The loop over any list of endpoints: it stops at the first endpoint
    whose answer satisfies, having requested exactly the endpoints up to
    it, or runs through the whole list and fails. *)
Lemma try_endpoints_spec net symbol interval limit eps :
  let url e := Part000.klinesUrl e symbol interval limit in
  match Part000.try_endpoints net symbol interval limit eps with
  | (Ok data, requested) =>
      ∃ before e after,
        eps = before ++ e :: after
        ∧ requested = url <$> (before ++ [e])
        ∧ Part000.satisfying (net (url e)) = Some data
        ∧ Forall (λ e', Part000.satisfying (net (url e')) = None) before
  | (Err err, requested) =>
      err = DataUnavailable
      ∧ requested = url <$> eps
      ∧ Forall (λ e, Part000.satisfying (net (url e)) = None) eps
  end.
Proof.
  intros url. induction eps as [|e eps IH]; simpl.
  - by repeat split.
  - fold (url e). destruct (Part000.satisfying (net (url e))) as [data|] eqn:He.
    + exists [], e, eps. by repeat split.
    + destruct (Part000.try_endpoints net symbol interval limit eps) as [[data|err] req].
      * destruct IH as (before & e' & after & -> & -> & Hsat & Hnone).
        exists (e :: before), e', after. repeat split; try done.
        by apply Forall_cons.
      * destruct IH as (-> & -> & Hnone). repeat split. by apply Forall_cons.
Qed.

Lemma satisfying_answers r data :
  Part000.satisfying r = Some data ↔ answers r data.
Proof.
  unfold answers. split.
  - destruct r as [|[] st stt txt [[|rows|length]|]]; simpl; try done.
    + case_bool_decide; [ | done]. intros [= <-]. by exists st, stt, txt.
    + destruct (ge length (JNum 50)) eqn:Hge; [ | done].
      intros [= <-]. by exists st, stt, txt.
  - intros (st & stt & txt & -> & Hlong). destruct data as [|rows|length]; simpl in *.
    + done.
    + by rewrite bool_decide_eq_true_2.
    + by rewrite Hlong.
Qed.

Lemma satisfying_none r :
  Part000.satisfying r = None ↔ ∀ data, ¬ answers r data.
Proof.
  split.
  - intros Hnone data Hans. apply satisfying_answers in Hans. congruence.
  - intros Hno. destruct (Part000.satisfying r) as [data|] eqn:Hsat; [ | done].
    apply satisfying_answers in Hsat. by destruct (Hno data).
Qed.

Lemma klinesUrl_mirror_url endpoint symbol interval limit :
  Part000.klinesUrl endpoint symbol interval limit
  = mirror_url symbol interval limit endpoint.
Proof. done. Qed.

(** The four mirrors are requested under four different URLs. *)
Lemma mirror_urls_differ symbol interval limit :
  NoDup (mirror_url symbol interval limit <$> mirrors).
Proof.
  unfold mirrors, mirror_url; cbn.
  repeat (apply NoDup_cons; split);
    [ rewrite !not_elem_of_cons; repeat split; try discriminate.. | | apply NoDup_nil_2 ];
    by apply not_elem_of_nil.
Qed.

(** C7: the endpoints are tried in their listed order, each at most once:
    the URLs requested are those of an initial segment of the four
    configured mirrors, which are four different URLs; an endpoint that
    fails in transport or answers with a non-success status is passed
    over, being no answer; the first endpoint that answers (success status
    and a decoded body that is truthy and at least 50 long) ends the loop
    with that body, no later endpoint being requested; and when no
    endpoint answers, all four were requested and the call fails with the
    unavailability error. *)
Theorem fetchKlines_failover net symbol interval limit :
  let url := mirror_url symbol interval limit in
  NoDup (url <$> mirrors)
  ∧ (∀ data, ¬ answers NetworkFailure data)
  ∧ (∀ status statusText text json data,
       ¬ answers (Http false status statusText text json) data)
  ∧ match Part000.fetchKlines net symbol interval limit with
    | (Ok data, requested) =>
        ∃ before e after,
          mirrors = before ++ e :: after
          ∧ requested = url <$> (before ++ [e])
          ∧ answers (net (url e)) data
          ∧ Forall (λ e', ∀ data', ¬ answers (net (url e')) data') before
    | (Err err, requested) =>
        err = DataUnavailable
        ∧ requested = url <$> mirrors
        ∧ Forall (λ e, ∀ data, ¬ answers (net (url e)) data) mirrors
    end.
Proof.
  intros url. split; [apply mirror_urls_differ | ].
  split; [by intros data (? & ? & ? & ? & _) | ].
  split; [by intros ? ? ? ? data (? & ? & ? & ? & _) | ].
  pose proof (try_endpoints_spec net symbol interval limit Part000.endpoints) as H.
  unfold Part000.fetchKlines. cbv zeta in H.
  destruct (Part000.try_endpoints _ _ _ _ _) as [[data|err] requested].
  - destruct H as (before & e & after & Heps & -> & Hsat & Hnone).
    exists before, e, after. split; [exact Heps | ]. split; [done | ].
    split; [by apply satisfying_answers | ].
    eapply Forall_impl; [exact Hnone | ]. intros e'. apply satisfying_none.
  - destruct H as (-> & -> & Hnone). split; [done | ]. split; [done | ].
    eapply Forall_impl; [exact Hnone | ]. intros e. apply satisfying_none.
Qed.

(** Two mirrors down, the third answers: its payload is returned and the
    fourth mirror is never requested. *)
Example third_endpoint_answers :
  Part000.fetchKlines Sample.net_third "BTCUSDT" "1d" 200
  = (Ok (PRows (Sample.series 60)),
     [ Part000.klinesUrl "https://api.binance.com" "BTCUSDT" "1d" 200;
       Part000.klinesUrl "https://api1.binance.com" "BTCUSDT" "1d" 200;
       Part000.klinesUrl "https://api2.binance.com" "BTCUSDT" "1d" 200 ]).
Proof. by vm_compute. Qed.

Example all_endpoints_down :
  Part000.fetchKlines Sample.net_down "BTCUSDT" "1d" 200
  = (Err DataUnavailable,
     (λ e, Part000.klinesUrl e "BTCUSDT" "1d" 200) <$> Part000.endpoints).
Proof. by vm_compute. Qed.

(* ===================================================================== *)
(** ** More on the Decision Engine                                        *)
(* ===================================================================== *)

(** The entries of a run with what their rules promise about them. *)
Lemma performAnalysis_entries indicators currentPrice previousPrice :
  ∃ c1 c2 c3 c4 c5,
    performAnalysis indicators currentPrice previousPrice = Normal (tally c1 c2 c3 c4 c5)
    ∧ (no_current (sma50 indicators) ∨ no_current (sma200 indicators) → abstains c1)
    ∧ (no_current (rsi indicators) → abstains c2)
    ∧ (no_current (sma20 indicators) ∨ no_current (sma50 indicators) → abstains c3)
    ∧ (macd_absent (macd indicators) → abstains c4)
    ∧ (no_current (volumeSma20 indicators) → abstains c5).
Proof.
  destruct (performAnalysis_tally indicators currentPrice previousPrice)
    as (c1 & c2 & c3 & c4 & c5 & Hrun & H1 & H2 & H3 & H4 & H5).
  destruct (rule_trend_votes indicators currentPrice) as (d1 & G1 & _ & _ & A1).
  destruct (rule_rsi_votes indicators) as (d2 & G2 & _ & _ & A2).
  destruct (rule_smaCrossover_votes indicators) as (d3 & G3 & _ & _ & A3).
  destruct (rule_macd_votes indicators) as (d4 & G4 & _ & _ & A4).
  destruct (rule_volume_votes indicators currentPrice previousPrice)
    as (d5 & G5 & _ & _ & A5).
  rewrite (same_entry _ _ _ H1 G1), (same_entry _ _ _ H2 G2), (same_entry _ _ _ H3 G3),
    (same_entry _ _ _ H4 G4), (same_entry _ _ _ H5 G5) in Hrun.
  by exists d1, d2, d3, d4, d5.
Qed.

(** Opens a goal [∃ a, run = Normal a ∧ _] on the votes of the run. *)
Ltac on_votes indicators currentPrice previousPrice :=
  let Hrun := fresh "Hrun" in
  destruct (performAnalysis_votes indicators currentPrice previousPrice)
    as (c1 & c2 & c3 & c4 & c5 & Hrun & V1 & V2 & V3 & V4 & V5);
  exists (tally c1 c2 c3 c4 c5); split; [exact Hrun | clear Hrun];
  each_vote.

(** X1: a buy decision takes at least three of the five entries voting
    buy, and a sell decision at least three voting sell (the counts the
    signal panel prints over the number of entries, which is always 5). *)
Theorem decision_needs_three_votes indicators currentPrice previousPrice :
  ∃ a, performAnalysis indicators currentPrice previousPrice = Normal a
    ∧ length (signals a) = 5
    ∧ (decision a = buy → 3 ≤ count_signals buy a)
    ∧ (decision a = sell → 3 ≤ count_signals sell a).
Proof.
  on_votes indicators currentPrice previousPrice;
    vm_compute; repeat split; intros; try discriminate; lia.
Qed.

(** X2: the decision never goes against the trend entry: when the trend
    rule votes sell the decision is not buy, and when it votes buy the
    decision is not sell. *)
Theorem decision_never_against_trend indicators currentPrice previousPrice :
  ∃ a, performAnalysis indicators currentPrice previousPrice = Normal a
    ∧ ∃ t, signals a !! 0%nat = Some t
        ∧ (signal t = sell → decision a ≠ buy)
        ∧ (signal t = buy → decision a ≠ sell).
Proof.
  on_votes indicators currentPrice previousPrice;
    (eexists; split; [rewrite signals_tally; reflexivity | ]);
    vm_compute; intuition congruence.
Qed.

(** X3: the percentage the signal panel prints, the confidence times 100
    rounded, is a whole number from 0 to 59 for every run, and 0 when the
    decision is neutral. *)
Theorem shown_confidence_at_most_59 indicators currentPrice previousPrice :
  ∃ a, performAnalysis indicators currentPrice previousPrice = Normal a
    ∧ ∃ p, confidence_percent a = Some p
        ∧ (0 ≤ p ≤ 59)%Z
        ∧ (decision a = neutral → p = 0%Z).
Proof.
  on_votes indicators currentPrice previousPrice;
    (eexists; split; [vm_compute; reflexivity | ]);
    vm_compute; repeat split; intros; try discriminate; try reflexivity.
Qed.

(** The bound is reached when all five rules vote buy. *)
Example all_buy_shows_59 :
  confidence_percent <$> performAnalysis Sample.all_buy (JNum 110) (JNum 108)
  = Normal (Some 59%Z).
Proof. by vm_compute. Qed.

(* ===================================================================== *)
(** ** The pipeline feeding the engine                                    *)
(* ===================================================================== *)

Lemma len_nonneg {A} (l : list A) : (0 ≤ len l)%Z.
Proof. unfold len. lia. Qed.

Lemma no_current_empty : no_current (Some (with_current [])).
Proof. done. Qed.

(** X4: run on the bundle of a short series, each rule abstains below its
    own history requirement, whatever the indicator library returns and
    whatever the prices: trend below 200 candles, RSI below 14, the
    crossover below 50, MACD below 34 and volume below 20; below 14
    candles the score is 0, the decision neutral and the confidence 0. *)
Theorem short_series_abstains lib klines currentPrice previousPrice :
  ∃ a c1 c2 c3 c4 c5,
    performAnalysis (calculateIndicators lib klines) currentPrice previousPrice = Normal a
    ∧ signals a = [c1; c2; c3; c4; c5]
    ∧ ((len klines < 200)%Z → abstains c1)
    ∧ ((len klines < 14)%Z → abstains c2)
    ∧ ((len klines < 50)%Z → abstains c3)
    ∧ ((len klines < 34)%Z → abstains c4)
    ∧ ((len klines < 20)%Z → abstains c5)
    ∧ ((len klines < 14)%Z →
       score a = 0%float ∧ decision a = neutral ∧ confidence a = 0%float).
Proof.
  destruct (performAnalysis_entries (calculateIndicators lib klines)
              currentPrice previousPrice)
    as (c1 & c2 & c3 & c4 & c5 & Hrun & A1 & A2 & A3 & A4 & A5).
  assert (T : (len klines < 200)%Z → abstains c1).
  { intros H. apply A1. right. unfold no_current, calculateIndicators; simpl.
    rewrite len_fmap. by rewrite bool_decide_eq_false_2 by lia. }
  assert (R : (len klines < 14)%Z → abstains c2).
  { intros H. apply A2. unfold no_current, calculateIndicators; simpl.
    rewrite len_fmap. by rewrite bool_decide_eq_false_2 by lia. }
  assert (X : (len klines < 50)%Z → abstains c3).
  { intros H. apply A3. right. unfold no_current, calculateIndicators; simpl.
    rewrite len_fmap. by rewrite bool_decide_eq_false_2 by lia. }
  assert (M : (len klines < 34)%Z → abstains c4).
  { intros H. apply A4. left. unfold calculateIndicators; simpl.
    rewrite len_fmap. by rewrite bool_decide_eq_false_2 by lia. }
  assert (V : (len klines < 20)%Z → abstains c5).
  { intros H. apply A5. unfold no_current, calculateIndicators; simpl.
    rewrite len_fmap. by rewrite bool_decide_eq_false_2 by lia. }
  exists (tally c1 c2 c3 c4 c5), c1, c2, c3, c4, c5.
  split; [exact Hrun | ]. split; [apply signals_tally | ].
  do 5 (split; [assumption | ]).
  intros H.
  destruct T as [s1 _]; [lia | ]. destruct R as [s2 _]; [lia | ].
  destruct X as [s3 _]; [lia | ]. destruct M as [s4 _]; [lia | ].
  destruct V as [s5 _]; [lia | ].
  unfold tally, final_decision, applied, signed; simpl.
  rewrite s1, s2, s3, s4, s5. by vm_compute.
Qed.

Lemma all_guards_pass lib klines :
  (200 ≤ len klines)%Z → calculateIndicators lib klines = unguarded lib klines.
Proof.
  intros H. unfold calculateIndicators, unguarded, stochastic_guard.
  rewrite !len_fmap. by rewrite !bool_decide_eq_true_2 by lia.
Qed.

(** X5: from 200 candles on, the number analyzeMarket insists on, no
    guard of calculateIndicators holds a library call back: the bundle is
    the one built from the eight library results. *)
Theorem enough_candles_for_every_indicator lib klines :
  (CONFIG.indicators.minDataPoints ≤ len klines)%Z →
  calculateIndicators lib klines = unguarded lib klines.
Proof.
  change CONFIG.indicators.minDataPoints with 200%Z. intros H.
  unfold calculateIndicators, unguarded, stochastic_guard.
  rewrite !len_fmap. by rewrite !bool_decide_eq_true_2 by lia.
Qed.

(** 200 candles and the stand-in library. *)
Lemma enough_candles_witness :
  calculateIndicators Sample.fixed_lib (Sample.candles 200)
  = unguarded Sample.fixed_lib (Sample.candles 200).
Proof.
  apply (enough_candles_for_every_indicator Sample.fixed_lib (Sample.candles 200)).
  by vm_compute.
Defined.

(* ===================================================================== *)
(** ** More on the Series Fetcher of jj.js                                *)
(* ===================================================================== *)

(** X6: a call that misses the cache issues exactly one request, and never
    earlier than one rate-limit interval (1000 ms) after the recorded time
    of the last request: it first waits out what is left of the interval,
    and does nothing else. *)
Theorem request_respects_rate_limit net symbol interval limit w :
  cached w (cacheKey symbol interval limit) = None →
  (lastRequestTime w + CONFIG.api.rateLimit
     ≤ now (fetchKlines net symbol interval limit w).2)%Z
  ∧ ∃ waits,
      trace (fetchKlines net symbol interval limit w).2
      = trace w ++ waits ++ [Request (apiUrl symbol interval limit)]
      ∧ (waits = [] ∧ now (fetchKlines net symbol interval limit w).2 = now w
         ∨ ∃ ms, waits = [Wait ms] ∧ (0 < ms ≤ CONFIG.api.rateLimit + lastRequestTime w - now w)%Z
                 ∧ now (fetchKlines net symbol interval limit w).2 = (now w + ms)%Z).
Proof.
  intros Hc. unfold fetchKlines. rewrite Hc. unfold CONFIG.api.rateLimit.
  case_bool_decide as Hlt.
  - split.
    + destruct (net _) as [|[] ? ? ? [?|]]; simpl; lia.
    + exists [Wait (1000 - (now w - lastRequestTime w))].
      split.
      * destruct (net _) as [|[] ? ? ? [?|]]; simpl; by rewrite <- app_assoc.
      * right. eexists. split; [reflexivity | ].
        destruct (net _) as [|[] ? ? ? [?|]]; simpl; lia.
  - split.
    + destruct (net _) as [|[] ? ? ? [?|]]; simpl; lia.
    + exists []. split; [ | left; split; [done | ]];
        destruct (net _) as [|[] ? ? ? [?|]]; simpl; done.
Qed.

(** A request 400 ms after the previous one. *)
Lemma rate_limit_witness :
  let w := {| cachedData := ∅; lastRequestTime := 4600; now := 5000; trace := [] |} in
  (lastRequestTime w + CONFIG.api.rateLimit
     ≤ now (fetchKlines Sample.net_short "BTCUSDT" "1h" 300 w).2)%Z
  ∧ ∃ waits,
      trace (fetchKlines Sample.net_short "BTCUSDT" "1h" 300 w).2
      = trace w ++ waits ++ [Request (apiUrl "BTCUSDT" "1h" 300)]
      ∧ (waits = [] ∧ now (fetchKlines Sample.net_short "BTCUSDT" "1h" 300 w).2 = now w
         ∨ ∃ ms, waits = [Wait ms] ∧ (0 < ms ≤ CONFIG.api.rateLimit + lastRequestTime w - now w)%Z
                 ∧ now (fetchKlines Sample.net_short "BTCUSDT" "1h" 300 w).2 = (now w + ms)%Z).
Proof.
  apply (request_respects_rate_limit Sample.net_short "BTCUSDT" "1h" 300
           {| cachedData := ∅; lastRequestTime := 4600; now := 5000; trace := [] |}).
  reflexivity.
Defined.

Lemma fetchKlines_failure net symbol interval limit w e w' :
  fetchKlines net symbol interval limit w = (Err e, w') →
  cachedData w' = cachedData w
  ∧ lastRequestTime w' = lastRequestTime w
  ∧ (e = Rejected ∨ ∃ status statusText text, e = FetchFailed status statusText text).
Proof.
  unfold fetchKlines. destruct (cached w _); [done | ].
  case_bool_decide; destruct (net _) as [|[] st stt txt [?|]];
    intros [= <- <-]; simpl; (split; [done | split; [done | eauto 6]]).
Qed.

(** X7: a call that fails stores nothing and does not move the
    last-request time, which only a successful response sets; and it fails
    either as the rejected request or with the status of the non-success
    response. *)
Theorem failed_fetch_leaves_state net symbol interval limit w e w' :
  fetchKlines net symbol interval limit w = (Err e, w') →
  cachedData w' = cachedData w
  ∧ lastRequestTime w' = lastRequestTime w
  ∧ (e = Rejected ∨ ∃ status statusText text, e = FetchFailed status statusText text).
Proof.
  unfold fetchKlines. destruct (cached w _); [done | ].
  case_bool_decide; destruct (net _) as [|[] st stt txt [?|]];
    intros [= <- <-]; simpl; (split; [done | split; [done | eauto 6]]).
Qed.

(** An unreachable exchange. *)
Lemma failed_fetch_witness :
  cachedData (fetchKlines Sample.net_down "BTCUSDT" "1h" 300 Sample.fresh).2
  = cachedData Sample.fresh
  ∧ lastRequestTime (fetchKlines Sample.net_down "BTCUSDT" "1h" 300 Sample.fresh).2
    = lastRequestTime Sample.fresh
  ∧ (Rejected = Rejected
     ∨ ∃ status statusText text, Rejected = FetchFailed status statusText text).
Proof.
  apply (failed_fetch_leaves_state Sample.net_down "BTCUSDT" "1h" 300 Sample.fresh).
  reflexivity.
Defined.

(** The world after a run is the world after its fetch. *)
Lemma analyzeMarket_world net lib symbol timeframe w :
  (analyzeMarket net lib symbol timeframe w).2
  = (fetchKlines net symbol timeframe CONFIG.api.defaultLimit w).2.
Proof.
  unfold analyzeMarket.
  destruct (fetchKlines _ _ _ _ _) as [[[|rows|length]|e] w1]; simpl; try done;
    repeat case_match; done.
Qed.

Lemma fetchKlines_keeps net symbol interval limit w key rows :
  cached w key = Some (PRows rows) →
  cached (fetchKlines net symbol interval limit w).2 key = Some (PRows rows).
Proof.
  intros Hk. unfold fetchKlines.
  destruct (cached w (cacheKey symbol interval limit)) as [data|] eqn:Hc; [done | ].
  assert (key ≠ cacheKey symbol interval limit) as Hne by congruence.
  case_bool_decide; destruct (net _) as [|[] st stt txt [?|]]; simpl; try done;
    unfold cached in *; simpl; by rewrite lookup_insert_ne.
Qed.

(** X8: the cache never forgets and never refreshes: a series cached under
    a key is still cached under it, unchanged, after any later fetch and
    after any later analysis run, for whatever symbol and interval and
    whatever the exchange answers. *)
Theorem cached_series_is_permanent net lib symbol interval limit w key rows :
  cached w key = Some (PRows rows) →
  cached (fetchKlines net symbol interval limit w).2 key = Some (PRows rows)
  ∧ cached (analyzeMarket net lib symbol interval w).2 key = Some (PRows rows).
Proof.
  intros Hk. split; [by apply fetchKlines_keeps | ].
  rewrite analyzeMarket_world. by apply fetchKlines_keeps.
Qed.

(** 17 cached candles for BTCUSDT survive a run for ETHUSDT that finds 200. *)
Lemma cached_series_witness :
  let w := (fetchKlines Sample.net_short "BTCUSDT" "1h" 300 Sample.fresh).2 in
  cached (fetchKlines Sample.net_full "ETHUSDT" "4h" 300 w).2 (cacheKey "BTCUSDT" "1h" 300)
  = Some (PRows (Sample.series 17))
  ∧ cached (analyzeMarket Sample.net_full Sample.fixed_lib "ETHUSDT" "4h" w).2
      (cacheKey "BTCUSDT" "1h" 300)
    = Some (PRows (Sample.series 17)).
Proof.
  apply (cached_series_is_permanent Sample.net_full Sample.fixed_lib "ETHUSDT" "4h" 300
           (fetchKlines Sample.net_short "BTCUSDT" "1h" 300 Sample.fresh).2
           (cacheKey "BTCUSDT" "1h" 300) (Sample.series 17)).
  reflexivity.
Defined.

(** A dash-free prefix is determined by the text up to the first dash. *)
Lemma dash_split s s' r r' :
  dash_free s = true → dash_free s' = true →
  s +:+ "-" +:+ r = s' +:+ "-" +:+ r' → s = s' ∧ r = r'.
Proof.
  revert s'. induction s as [|c s IH]; intros [|c' s']; cbn.
  - intros _ _ E. by injection E.
  - intros _ H E. injection E as <- _. by vm_compute in H.
  - intros H _ E. injection E as -> _. by vm_compute in H.
  - intros [_ H]%andb_prop [_ H']%andb_prop E. injection E as -> E.
    destruct (IH _ H H' E) as [-> ->]. done.
Qed.

(** X9: for symbols and intervals without a dash (all those the page
    offers) the cache key determines the request: two requests share a key
    only if they agree on symbol, interval and limit, so a cache hit never
    serves another request's candles. *)
Theorem cacheKey_determines_request symbol interval limit symbol' interval' limit' :
  dash_free symbol = true → dash_free interval = true →
  dash_free symbol' = true → dash_free interval' = true →
  cacheKey symbol interval limit = cacheKey symbol' interval' limit' →
  symbol = symbol' ∧ interval = interval' ∧ limit = limit'.
Proof.
  intros Hs Hi Hs' Hi' E. unfold cacheKey in E.
  apply dash_split in E as [-> E]; [ | done..].
  apply dash_split in E as [-> E]; [ | done..].
  by apply (inj pretty) in E.
Qed.

Lemma cacheKey_witness :
  "BTCUSDT" = "BTCUSDT" ∧ "1h" = "1h" ∧ 300%N = 300%N.
Proof.
  apply (cacheKey_determines_request "BTCUSDT" "1h" 300 "BTCUSDT" "1h" 300);
    reflexivity.
Defined.

(** With dashes in them, different requests can meet on one key. *)
Example cacheKey_collision :
  cacheKey "A-B" "C" 5 = cacheKey "A" "B-C" 5.
Proof. reflexivity. Qed.

(* ===================================================================== *)
(** ** More on analyzeMarket of jj.js                                     *)
(* ===================================================================== *)

(** The second-to-last close, as line 524 reads it. *)
Lemma index_fmap_JNum (l : list float) (i : Z) :
  (0 ≤ i < len l)%Z → ∃ x, index (JNum <$> l) i = JNum x ∧ l !! Z.to_nat i = Some x.
Proof.
  intros H. unfold index. rewrite decide_True by lia.
  destruct (l !! Z.to_nat i) as [x|] eqn:Hl.
  - exists x. by rewrite list_lookup_fmap, Hl.
  - apply lookup_ge_None in Hl. unfold len in H. lia.
Qed.

Lemma all_rows_Some rows klines :
  all_rows rows = Some klines ↔ rows = Some <$> klines.
Proof.
  revert klines. induction rows as [|[k|] rows IH]; intros klines; simpl.
  - split; [by intros [= <-] | by destruct klines].
  - destruct (all_rows rows) as [ks|]; simpl.
    + split.
      * intros [= <-]. simpl. f_equal. by apply IH.
      * destruct klines as [|k' klines]; [done | ]. intros [= -> H].
        apply IH in H. by injection H as ->.
    + split; [done | ]. destruct klines as [|k' klines]; [done | ].
      intros [= _ H]. by apply IH in H.
  - split; [done | by destruct klines].
Qed.

Lemma all_rows_None rows : all_rows rows = None ↔ None ∈ rows.
Proof.
  induction rows as [|[k|] rows IH]; simpl.
  - split; [done | by intros ?%elem_of_nil].
  - rewrite elem_of_cons. destruct (all_rows rows); simpl.
    + split; [done | ]. intros [?|H]; [done | ]. by apply IH in H.
    + split; [ | done]. intros _. right. by apply IH.
  - split; [ | done]. intros _. by left.
Qed.

(** X10: what a run of analyzeMarket ends with, by what its fetch returns.
    Results come only from an array of at least 200 rows, none of them
    null and all with a numeric close: they carry those rows (which are
    what is now cached under the key), the symbol, the last close as
    current price, the bundle built with every library call made, and the
    analysis of that bundle against the last two closes, with its five
    entries.  A failure is the fetcher's own when the fetch failed; the
    insufficient-data error for a falsy body, for an array of fewer than
    200 elements, and for another truthy body whose length is below 200; a
    TypeError for any other truthy body that is not an array and for an
    array of 200 or more with a null element; and the bad-price error for
    an array of 200 or more rows one of whose closes is NaN.  Computing
    the indicators and the analysis never adds a failure. *)
Theorem analyzeMarket_outcome net lib symbol timeframe w :
  match analyzeMarket net lib symbol timeframe w with
  | (Ok r, w') =>
      (fetchKlines net symbol timeframe CONFIG.api.defaultLimit w).1
      = Ok (PRows (Some <$> r_klines r))
      ∧ (200 ≤ len (r_klines r))%Z
      ∧ existsb is_nan (Kline.close <$> r_klines r) = false
      ∧ cached w' (cacheKey symbol timeframe CONFIG.api.defaultLimit)
        = Some (PRows (Some <$> r_klines r))
      ∧ r_symbol r = symbol
      ∧ r_currentPrice r = last_close (r_klines r)
      ∧ r_indicators r = unguarded lib (r_klines r)
      ∧ performAnalysis (r_indicators r) (r_currentPrice r)
          (index (JNum <$> (Kline.close <$> r_klines r)) (len (r_klines r) - 2))
        = Normal (r_analysis r)
      ∧ length (signals (r_analysis r)) = 5
  | (Err e, w') =>
      match (fetchKlines net symbol timeframe CONFIG.api.defaultLimit w).1 with
      | Err e' =>
          e = e'
          ∧ (e = Rejected
             ∨ ∃ status statusText text, e = FetchFailed status statusText text)
      | Ok PNull => e = InsufficientData 0 200
      | Ok (POther length) =>
          if lt length (JNum 200)
          then e = InsufficientLength (to_number length) 200
          else e = Thrown TypeError
      | Ok (PRows rows) =>
          ((len rows < 200)%Z → e = InsufficientData (len rows) 200)
          ∧ ((200 ≤ len rows)%Z → None ∈ rows → e = Thrown TypeError)
          ∧ ((200 ≤ len rows)%Z → ∀ klines, rows = Some <$> klines →
             e = BadPrices ∧ existsb is_nan (Kline.close <$> klines) = true)
      end
  end.
Proof.
  unfold analyzeMarket.
  destruct (fetchKlines net symbol timeframe CONFIG.api.defaultLimit w)
    as [[[|rows|length]|e] w1] eqn:Hfetch; simpl.
  - done.
  - change CONFIG.indicators.minDataPoints with 200%Z.
    case_bool_decide as Hlen.
    { split; [done | ]. split; intros; lia. }
    destruct (all_rows rows) as [klines|] eqn:Hrows.
    2:{ split; [intros; lia | ]. split; [done | ].
        intros _ klines ->. by rewrite (proj2 (all_rows_Some _ _) eq_refl) in Hrows. }
    apply all_rows_Some in Hrows as ->. rewrite len_fmap in Hlen.
    destruct (negb _ || _ || _) eqn:Hbad.
    { split; [rewrite len_fmap; intros; lia | ].
      split.
      - intros _ Hnone. apply all_rows_None in Hnone.
        by rewrite (proj2 (all_rows_Some _ _) eq_refl) in Hnone.
      - intros _ klines' Heq. apply (inj (fmap Some)) in Heq as <-.
        split; [done | ].
        apply orb_true_iff in Hbad as [Hundef|Hnan]; [ | exact Hnan].
        exfalso. apply orb_true_iff in Hundef as [Hcur|Hprev].
        + destruct (index_fmap_JNum (Kline.close <$> klines)
                      (len (Kline.close <$> klines) - 1)) as (x & Hx & _).
          { rewrite len_fmap. lia. }
          unfold last_or_undefined in Hcur. rewrite decide_True in Hcur.
          * rewrite (len_fmap JNum) in Hcur. by rewrite Hx in Hcur.
          * rewrite len_fmap, len_fmap. lia.
        + rewrite bool_decide_eq_true_2 in Hprev by (rewrite len_fmap; lia).
          destruct (index_fmap_JNum (Kline.close <$> klines)
                      (len (Kline.close <$> klines) - 2)) as (x & Hx & _).
          { rewrite len_fmap. lia. }
          by rewrite Hx in Hprev. }
    apply orb_false_elim in Hbad as [_ Hnan].
    destruct (performAnalysis_tally (calculateIndicators lib klines)
                (last_or_undefined (JNum <$> (Kline.close <$> klines)))
                (if bool_decide (1 < len (Kline.close <$> klines))%Z
                 then index (JNum <$> (Kline.close <$> klines))
                        (len (Kline.close <$> klines) - 2)
                 else JUndef))
      as (c1 & c2 & c3 & c4 & c5 & Hrun & _).
    rewrite Hrun. simpl.
    split; [done | ]. split; [lia | ]. split; [exact Hnan | ].
    split; [by eapply fetchKlines_caches | ].
    split; [done | ]. split; [done | ].
    split; [apply all_guards_pass; lia | ].
    split; [ | by rewrite signals_tally].
    rewrite <- Hrun. rewrite len_fmap. by rewrite bool_decide_eq_true_2 by lia.
  - change CONFIG.indicators.minDataPoints with 200%Z. by destruct (lt length (JNum 200)).
  - split; [done | ].
    by destruct (fetchKlines_failure _ _ _ _ _ _ _ Hfetch) as (_ & _ & ?).
Qed.

(** A run is decided by the series its fetch returns. *)
Lemma analyzeMarket_of_series net net' lib symbol timeframe w w1 w2 rows :
  fetchKlines net symbol timeframe CONFIG.api.defaultLimit w = (Ok (PRows rows), w1) →
  fetchKlines net' symbol timeframe CONFIG.api.defaultLimit w2 = (Ok (PRows rows), w2) →
  analyzeMarket net' lib symbol timeframe w2
  = ((analyzeMarket net lib symbol timeframe w).1, w2).
Proof.
  intros H H'. unfold analyzeMarket. rewrite H, H'.
  repeat case_match; done.
Qed.

(** X11: a run that ends on a fetched series, be it with results, with too
    few candles (but at least one) or with a bad price, repeats itself:
    every later run for the same symbol and timeframe ends the same way
    from the cache alone, whatever the exchange would answer by then, and
    changes nothing. *)
Theorem outcome_repeats_from_cache net net' lib symbol timeframe w o w' :
  analyzeMarket net lib symbol timeframe w = (o, w') →
  match o with
  | Ok _ | Err BadPrices => True
  | Err (InsufficientData fetched _) => (0 < fetched)%Z
  | Err _ => False
  end →
  analyzeMarket net' lib symbol timeframe w' = (o, w').
Proof.
  intros Hrun Ho.
  pose proof (analyzeMarket_world net lib symbol timeframe w) as Hw.
  rewrite Hrun in Hw; simpl in Hw.
  destruct (fetchKlines net symbol timeframe CONFIG.api.defaultLimit w)
    as [[[|rows|length]|e] w1] eqn:Hfetch; simpl in Hw; subst w1.
  - unfold analyzeMarket in Hrun. rewrite Hfetch in Hrun.
    injection Hrun as <-. simpl in Ho. lia.
  - rewrite (analyzeMarket_of_series net net' lib symbol timeframe w w' w' rows Hfetch).
    + by rewrite Hrun.
    + apply fetchKlines_hit. by eapply fetchKlines_caches.
  - unfold analyzeMarket in Hrun. rewrite Hfetch in Hrun.
    destruct (lt length (JNum 200)); by injection Hrun as <-.
  - unfold analyzeMarket in Hrun. rewrite Hfetch in Hrun. injection Hrun as <-.
    destruct (fetchKlines_failure _ _ _ _ _ _ _ Hfetch)
      as (_ & _ & [->|(? & ? & ? & ->)]); done.
Qed.


(** 17 candles once, 17 candles for ever. *)
Lemma outcome_repeats_witness :
  analyzeMarket Sample.net_full Sample.fixed_lib "BTCUSDT" "1h"
    (analyzeMarket Sample.net_short Sample.fixed_lib "BTCUSDT" "1h" Sample.fresh).2
  = (Err (InsufficientData 17 200),
     (analyzeMarket Sample.net_short Sample.fixed_lib "BTCUSDT" "1h" Sample.fresh).2).
Proof.
  apply (outcome_repeats_from_cache Sample.net_short Sample.net_full Sample.fixed_lib
           "BTCUSDT" "1h" Sample.fresh);
    [reflexivity | by vm_compute].
Defined.

Example full_run :
  (λ r, (r_currentPrice r, decision (r_analysis r), score (r_analysis r)))
    <$> match (analyzeMarket Sample.net_full Sample.fixed_lib "BTCUSDT" "1h"
                 Sample.fresh).1 with
        | Ok r => Some r
        | Err _ => None
        end
  = Some (JNum 101, neutral, 10.5%float).
Proof. by vm_compute. Qed.

Example bad_price_run :
  (analyzeMarket Sample.net_bad Sample.fixed_lib "BTCUSDT" "1h" Sample.fresh).1
  = Err BadPrices.
Proof. by vm_compute. Qed.

Example hole_run :
  (analyzeMarket Sample.net_hole Sample.fixed_lib "BTCUSDT" "1h" Sample.fresh).1
  = Err (Thrown TypeError).
Proof. by vm_compute. Qed.

Example object_run :
  (analyzeMarket Sample.net_object Sample.fixed_lib "BTCUSDT" "1h" Sample.fresh).1
  = Err (Thrown TypeError).
Proof. by vm_compute. Qed.

Example string_run :
  (analyzeMarket Sample.net_string Sample.fixed_lib "BTCUSDT" "1h" Sample.fresh).1
  = Err (InsufficientLength 66 200).
Proof. by vm_compute. Qed.

(* ===================================================================== *)
(** ** More on part_000                                                   *)
(* ===================================================================== *)

Lemma fetched_body net symbol interval limit :
  match (Part000.fetchKlines net symbol interval limit).1 with
  | Ok data => long_enough data
  | Err e => e = DataUnavailable
  end.
Proof.
  pose proof (try_endpoints_spec net symbol interval limit Part000.endpoints) as H.
  unfold Part000.fetchKlines. cbv zeta in H.
  destruct (Part000.try_endpoints _ _ _ _ _) as [[data|e] req]; simpl.
  - destruct H as (before & e & after & _ & _ & Hsat & _).
    by apply satisfying_answers in Hsat as (? & ? & ? & _ & ?).
  - by destruct H as (-> & _).
Qed.

(** X12: the failover fetcher makes between one and four requests.  What
    it returns is a truthy body whose length is at least 50: an array of
    at least 50 elements, or another body with such a length, for the
    elements are not looked at.  A failure is the unavailability error
    and comes after all four requests. *)
Theorem fetched_body_is_long_enough net symbol interval limit :
  (1 ≤ length (Part000.fetchKlines net symbol interval limit).2 ≤ 4)
  ∧ match (Part000.fetchKlines net symbol interval limit).1 with
    | Ok data => long_enough data
    | Err e => e = DataUnavailable
               ∧ length (Part000.fetchKlines net symbol interval limit).2 = 4
    end.
Proof.
  pose proof (try_endpoints_spec net symbol interval limit Part000.endpoints) as H.
  unfold Part000.fetchKlines. cbv zeta in H.
  destruct (Part000.try_endpoints _ _ _ _ _) as [[data|e] req]; simpl.
  - destruct H as (before & e & after & Heps & -> & Hsat & _).
    apply (f_equal length) in Heps. rewrite length_app in Heps; simpl in Heps.
    rewrite length_fmap, length_app; simpl.
    split; [lia | ]. by apply satisfying_answers in Hsat as (? & ? & ? & _ & ?).
  - destruct H as (-> & -> & _). rewrite length_fmap; simpl.
    split; [lia | done].
Qed.

(** Four mirrors answering with 49 candles each. *)
Example short_answers_exhaust_the_endpoints :
  Part000.fetchKlines Sample.net_49 "BTCUSDT" "1d" 200
  = (Err DataUnavailable, mirror_url "BTCUSDT" "1d" 200 <$> mirrors).
Proof. by vm_compute. Qed.

(** A body that is a string of 66 characters is returned as it is, by the
    first mirror. *)
Example string_body_is_returned :
  Part000.fetchKlines Sample.net_string "BTCUSDT" "1d" 200
  = (Ok (POther (JNum 66)), [mirror_url "BTCUSDT" "1d" 200 "https://api.binance.com"]).
Proof. by vm_compute. Qed.

(** X13: the failover fetcher fails, with the unavailability error,
    exactly when none of the four mirrors answers its URL with a success
    status and a decoded body that is truthy and at least 50 long. *)
Theorem fetch_fails_iff_no_endpoint_answers net symbol interval limit :
  (Part000.fetchKlines net symbol interval limit).1 = Err DataUnavailable
  ↔ Forall (λ e, ∀ data, ¬ answers (net (mirror_url symbol interval limit e)) data)
      mirrors.
Proof.
  pose proof (try_endpoints_spec net symbol interval limit Part000.endpoints) as H.
  unfold Part000.fetchKlines. cbv zeta in H.
  destruct (Part000.try_endpoints _ _ _ _ _) as [[data|e] req]; simpl.
  - destruct H as (before & e & after & Heps & _ & Hsat & _).
    split; [done | ]. change mirrors with Part000.endpoints. rewrite Heps. intros Hall.
    apply Forall_app in Hall as [_ Hall]. apply Forall_cons in Hall as [He _].
    apply satisfying_answers in Hsat. by destruct (He data).
  - destruct H as (-> & _ & Hall). split; [ | done]. intros _.
    eapply Forall_impl; [exact Hall | ]. intros e. apply satisfying_none.
Qed.

(** The last usable element of an array with one: what comes after it is
    not usable, and it is the element at the last index of the filtered
    array. *)
Lemma last_usable (l : list float) :
  (0 < len (usable l))%Z →
  ∃ before x after,
    l = before ++ x :: after
    ∧ truthy_number x = true
    ∧ usable after = []
    ∧ index (JNum <$> usable l) (len (usable l) - 1) = JNum x.
Proof.
  unfold usable. induction l as [|y l IH] using rev_ind.
  { intros H. by vm_compute in H. }
  rewrite filter_app. destruct (truthy_number y) eqn:Hy.
  - intros _. exists l, y, []. split; [done | ]. split; [done | ]. split; [done | ].
    rewrite filter_cons_True by by apply Is_true_true.
    rewrite filter_nil. unfold index, len. rewrite length_app; simpl.
    rewrite decide_True by lia.
    rewrite list_lookup_fmap, lookup_app_r by lia.
    by replace (Z.to_nat _ - _) with 0 by lia.
  - rewrite filter_cons_False by (rewrite Is_true_false; done).
    rewrite filter_nil, app_nil_r. intros H.
    destruct (IH H) as (before & x & after & -> & Hx & Hafter & Hidx).
    exists before, x, (after ++ [y]).
    split; [by rewrite <- app_assoc | ]. split; [done | ]. split; [ | done].
    rewrite filter_app, Hafter. rewrite filter_cons_False by (rewrite Is_true_false; done).
    done.
Qed.

Lemma len_usable_le (l : list float) : (len (usable l) ≤ len l)%Z.
Proof. unfold len, usable. pose proof (length_filter (λ x, truthy_number x) l). lia. Qed.

(** X14: what a run of the part_000 page leaves on screen.  Loading is
    over either way.  The run succeeds only on an array without null
    elements of which at least 50 closes and at least 50 volumes are
    usable (numbers other than 0): the error is then cleared and the
    results hold the symbol, those rows, the number of usable closes, and
    as current price the last usable close, whatever comes after it in
    the array.  On failure the results of the previous run stay as they
    were, and the error shown is the region help when the fetcher failed,
    the engine's TypeError when the body is not an array or has a null
    element, and the plain insufficient-data message when fewer than 50
    closes or fewer than 50 volumes are usable. *)
Theorem part000_run_outcome net symbol timeframe st :
  Part000.State.isLoading (Part000.analyzeMarket net symbol timeframe st).1 = false
  ∧ match Part000.State.error (Part000.analyzeMarket net symbol timeframe st).1 with
    | None =>
        ∃ r before x after,
          Part000.State.results (Part000.analyzeMarket net symbol timeframe st).1 = Some r
          ∧ (Part000.fetchKlines net symbol timeframe 200).1
            = Ok (PRows (Some <$> Part000.Results.klines r))
          ∧ Part000.Results.symbol r = symbol
          ∧ Kline.close <$> Part000.Results.klines r = before ++ x :: after
          ∧ truthy_number x = true
          ∧ usable after = []
          ∧ Part000.Results.currentPrice r = JNum x
          ∧ Part000.Results.dataPoints r
            = len (usable (Kline.close <$> Part000.Results.klines r))
          ∧ (50 ≤ Part000.Results.dataPoints r)%Z
          ∧ (50 ≤ len (usable (Kline.volume <$> Part000.Results.klines r)))%Z
    | Some v =>
        Part000.State.results (Part000.analyzeMarket net symbol timeframe st).1
        = Part000.State.results st
        ∧ match (Part000.fetchKlines net symbol timeframe 200).1 with
          | Err _ => v = Part000.RegionHelp
          | Ok (PRows rows) =>
              (None ∈ rows → v = Part000.NativeMessage TypeError)
              ∧ (∀ klines, rows = Some <$> klines →
                 v = Part000.Plain "بيانات غير كافية للتحليل"
                 ∧ ((len (usable (Kline.close <$> klines)) < 50)%Z
                    ∨ (len (usable (Kline.volume <$> klines)) < 50)%Z))
          | Ok _ => v = Part000.NativeMessage TypeError
          end
    end.
Proof.
  unfold Part000.analyzeMarket, Part000.analyzeMarket_try.
  pose proof (fetched_body net symbol timeframe 200) as Hbody.
  destruct (Part000.fetchKlines net symbol timeframe 200) as [[data|e] req]; simpl in *.
  - destruct data as [|rows|length]; simpl; [done | | done].
    destruct (all_rows rows) as [klines|] eqn:Hrows.
    2:{ simpl. split; [done | ]. split; [done | ]. split; [done | ].
        intros klines ->. by rewrite (proj2 (all_rows_Some _ _) eq_refl) in Hrows. }
    apply all_rows_Some in Hrows as ->.
    fold (usable (Kline.close <$> klines)). fold (usable (Kline.volume <$> klines)).
    destruct (bool_decide _ || bool_decide _) eqn:Hshort; simpl.
    + split; [done | ]. split; [done | ]. split.
      * intros Hnone. apply all_rows_None in Hnone.
        by rewrite (proj2 (all_rows_Some _ _) eq_refl) in Hnone.
      * intros klines' Heq. apply (inj (fmap Some)) in Heq as <-.
        split; [by vm_compute | ].
        apply orb_true_iff in Hshort as [H|H]; apply bool_decide_eq_true_1 in H; auto.
    + apply orb_false_elim in Hshort as [Hp Hv].
      apply bool_decide_eq_false_1 in Hp. apply bool_decide_eq_false_1 in Hv.
      split; [done | ].
      destruct (last_usable (Kline.close <$> klines))
        as (before & x & after & Hsplit & Hx & Hafter & Hidx); [lia | ].
      eexists _, before, x, after. simpl.
      split; [reflexivity | ]. split; [done | ]. split; [done | ].
      split; [exact Hsplit | ]. split; [done | ]. split; [done | ].
      split; [exact Hidx | ]. split; [done | ]. unfold usable in *. split; simpl; lia.
  - split; [done | ]. split; [done | ]. subst e. by vm_compute.
Qed.

(** The current price is the last usable close, not the last close. *)
Example current_price_skips_bad_close :
  Part000.Results.currentPrice
    <$> Part000.State.results
          (Part000.analyzeMarket
             (λ _, Http true 200 "OK" ""
                     (Some (PRows (Sample.series 60 ++ [Some Sample.bad_row]))))
             "BTCUSDT" "1d" Sample.blank).1
  = Some (JNum 101).
Proof. by vm_compute. Qed.

(** A string body gets past the fetcher and ends the run in a TypeError. *)
Example string_body_run :
  Part000.State.error
    (Part000.analyzeMarket Sample.net_string "BTCUSDT" "1d" Sample.blank).1
  = Some (Part000.NativeMessage TypeError).
Proof. by vm_compute. Qed.

(** X15: the Bollinger and stochastic entries of the bundle are computed
    but never consulted: replacing them by anything, also by nothing,
    leaves the whole analysis as it is. *)
Theorem bands_and_stochastic_are_ignored indicators bb st currentPrice previousPrice :
  performAnalysis (with_bands indicators bb st) currentPrice previousPrice
  = performAnalysis indicators currentPrice previousPrice.
Proof. by destruct indicators. Qed.

(** Every symbol and timeframe the page offers is free of dashes. *)
Example offered_requests_are_dash_free :
  Forall (λ o, dash_free o.1 = true) (tradingPairs ++ timeframes).
Proof. by repeat constructor. Qed.
